(** * SafeOrbit inference script ([ai-engine/predict.py])

    A shallow embedding of the command-line predictor: the class
    [ObjectDetectionPredictor] ([__init__], [predict_image],
    [predict_batch], [_extract_predictions], [_draw_predictions]) and the
    entry point [main].

    The script is glue around external libraries (pathlib, OpenCV, torch,
    ultralytics and the optional [inference_tta] module).  Those libraries
    are not part of the repository; they appear here as a record of
    operations over an abstract world, about which nothing is assumed.
    Python exceptions are values of type [Exception]; a computation is a
    function from a state to a result-or-exception and a new state, so
    that what was printed and which library calls were made survive an
    exception, as they do in Python. *)

From stdpp Require Import base option list strings gmap pretty.
From Stdlib Require Import Ascii QArith.

#[local] Open Scope Z_scope.
#[local] Open Scope string_scope.
#[local] Open Scope list_scope.

(** ** Python strings *)

Module Str.

(** [s * n] for a string [s]. *)
Fixpoint repeat (s : string) (n : nat) : string :=
  match n with
  | O => ""
  | S n' => s +:+ repeat s n'
  end.

(** [str.upper] on strings of ASCII characters (the extensions the
    script passes are ASCII); the case mapping of other characters is
    not modelled. *)
Definition upper_ascii (c : ascii) : ascii :=
  let n := nat_of_ascii c in
  if (97 <=? n)%nat && (n <=? 122)%nat then ascii_of_nat (n - 32) else c.

Fixpoint upper (s : string) : string :=
  match s with
  | EmptyString => EmptyString
  | String c s' => String (upper_ascii c) (upper s')
  end.

(** [s.rfind(c)]: the index of the last occurrence of [c], or [-1]. *)
Fixpoint rfind_from (c : ascii) (s : string) (i : Z) (last : Z) : Z :=
  match s with
  | EmptyString => last
  | String d s' =>
      rfind_from c s' (i + 1) (if Ascii.eqb d c then i else last)
  end.

Definition rfind (c : ascii) (s : string) : Z := rfind_from c s 0 (-1).

(** [s[:i]] and [s[i:]] for [0 <= i]. *)
Fixpoint take (i : nat) (s : string) : string :=
  match i, s with
  | S i', String c s' => String c (take i' s')
  | _, _ => EmptyString
  end.

Fixpoint drop (i : nat) (s : string) : string :=
  match i, s with
  | S i', String _ s' => drop i' s'
  | _, _ => s
  end.

(** [s.split(sep)] for a one-character separator. *)
Fixpoint split (sep : ascii) (s : string) : list string :=
  match s with
  | EmptyString => [EmptyString]
  | String c s' =>
      if Ascii.eqb c sep then EmptyString :: split sep s'
      else match split sep s' with
           | x :: xs => String c x :: xs
           | [] => [String c EmptyString]
           end
  end.

(** [c in s] *)
Fixpoint contains (c : ascii) (s : string) : bool :=
  match s with
  | EmptyString => false
  | String d s' => Ascii.eqb d c || contains c s'
  end.

(** [sep.join(l)]. *)
Fixpoint join (sep : string) (l : list string) : string :=
  match l with
  | [] => ""
  | [x] => x
  | x :: rest => x +:+ sep +:+ join sep rest
  end.

(** [s.startswith(p)] *)
Fixpoint startswith (p s : string) : bool :=
  match p, s with
  | EmptyString, _ => true
  | String a p', String b s' => Ascii.eqb b a && startswith p' s'
  | String _ _, EmptyString => false
  end.

End Str.

(** ** pathlib

    [Path] follows [pathlib.PurePosixPath]: a root (["" ], ["/"] or
    ["//"]) and the list of components, from which empty components and
    ["."] are dropped when a string is parsed. *)

Record Path := mkPath { root : string; parts : list string }.

#[global] Instance Path_eq_dec : EqDecision Path.
Proof. solve_decision. Defined.

Module pathlib.

Definition splitroot (s : string) : string :=
  if Str.startswith "/" s then
    if Str.startswith "//" s && negb (Str.startswith "///" s) then "//"
    else "/"
  else "".

Definition keep_part (x : string) : bool :=
  negb (String.eqb x "") && negb (String.eqb x ".").

(** [Path(s)] *)
Definition of_str (s : string) : Path :=
  mkPath (splitroot s) (List.filter keep_part (Str.split "/" s)).

(** [str(p)] *)
Definition str (p : Path) : string :=
  match root p, parts p with
  | "", [] => "."
  | r, ps => r +:+ Str.join "/" ps
  end.

(** [p / q] for two paths: an absolute right operand replaces the left. *)
Definition join (p q : Path) : Path :=
  if String.eqb (root q) "" then mkPath (root p) (parts p ++ parts q)
  else q.

(** [p / s] for a string [s]. *)
Definition truediv (p : Path) (s : string) : Path := join p (of_str s).

(** [p.name]: the final component, or [""] when there is none. *)
Definition name (p : Path) : string := List.last (parts p) "".

(** The test [0 < i < len(name) - 1] shared by [suffix] and [stem],
    where [i = name.rfind('.')]. *)
Definition has_suffix (nm : string) : bool :=
  let i := Str.rfind "." nm in
  ((0 <? i) && (i <? Z.of_nat (String.length nm) - 1))%Z.

(** [p.suffix] *)
Definition suffix (p : Path) : string :=
  let nm := name p in
  if has_suffix nm then Str.drop (Z.to_nat (Str.rfind "." nm)) nm else "".

(** [p.stem] *)
Definition stem (p : Path) : string :=
  let nm := name p in
  if has_suffix nm then Str.take (Z.to_nat (Str.rfind "." nm)) nm else nm.

End pathlib.

Notation "p // s" := (pathlib.truediv p s) (at level 40, left associativity).

(** ** Python floats

    A finite float is carried as the rational number it denotes; rounding
    to binary64 is not modelled.  The three special values are kept
    because [int] raises on them. *)

Inductive pyfloat :=
| Finite (q : Q)
| PosInf
| NegInf
| NaN.

(** ** Exceptions

    Only instances of Python's [Exception] class are modelled (those are
    what [except Exception] catches). *)

Inductive Exception :=
| FileNotFoundError (msg : string)
| ValueError (msg : string)
| OverflowError (msg : string)
| KeyError (key : Z)
| IndexError (msg : string)
| NameError (msg : string)
| AttributeError (msg : string)
| ZeroDivisionError (msg : string)
| TypeError (msg : string)
| LibraryError (cls : string) (msg : string).

(** [str(e)] *)
Definition str_exc (e : Exception) : string :=
  match e with
  | FileNotFoundError m | ValueError m | OverflowError m | IndexError m
  | NameError m | AttributeError m | ZeroDivisionError m | TypeError m
  | LibraryError _ m => m
  | KeyError k => pretty k
  end.

Definition is_FileNotFoundError (e : Exception) : bool :=
  match e with FileNotFoundError _ => true | _ => false end.

Definition is_ValueError (e : Exception) : bool :=
  match e with ValueError _ => true | _ => false end.

(** Pure code that may raise. *)
Definition Result (A : Type) : Type := Exception + A.

Definition rbind {A B} (c : Result A) (k : A → Result B) : Result B :=
  match c with
  | inl e => inl e
  | inr a => k a
  end.

Notation "'let?' x ':=' c 'in' k" := (rbind c (λ x, k))
  (at level 10, x pattern, c at level 100, k at level 200).

(** [int(x)] for a float: truncation towards zero. *)
Definition py_int (x : pyfloat) : Result Z :=
  match x with
  | Finite q => inr (Z.quot (Qnum q) (Z.pos (Qden q)))
  | NaN => inl (ValueError "cannot convert float NaN to integer")
  | PosInf | NegInf => inl (OverflowError "cannot convert float infinity to integer")
  end.

(** [a / b] for two non-negative integers: the quotient, as a float. *)
Definition py_truediv (a b : nat) : Result pyfloat :=
  match b with
  | O => inl (ZeroDivisionError "division by zero")
  | S _ => inr (Finite (Qmake (Z.of_nat a) (Pos.of_nat b)))
  end.

(** ** Data model *)

(** A detection record: the dictionary built in [_extract_predictions]. *)
Record Detection := mkDetection {
  class_id : Z;
  class_name : string;
  confidence : pyfloat;
  bbox : list pyfloat
}.

(** A prediction result: the dictionary returned by [predict_image]. *)
Record Prediction := mkPrediction {
  image_path : string;
  image_size : list Z;
  predictions : list Detection;
  num_detections : nat
}.

(** One row of the detector's [Boxes] tensor.  ultralytics keeps the
    boxes as an [N x 6] tensor; [xyxy] is its first four columns, [conf]
    the fifth and [cls] the sixth, so the row [i] holds [boxes.xyxy[i]],
    [boxes.conf[i]] and [boxes.cls[i]]. *)
Record Box := mkBox {
  xyxy : pyfloat * pyfloat * pyfloat * pyfloat;
  conf : pyfloat;
  cls : pyfloat
}.

(** What inference returns: an object without a [boxes] attribute
    ([hasattr(results, 'boxes')] is false), with a [boxes] attribute that
    is [None] (ultralytics sets it so for models that predict no boxes),
    or with the boxes found. *)
Inductive Results :=
| NoBoxesAttr
| BoxesNone
| WithBoxes (boxes : list Box).

(** [t.cpu().numpy().tolist()] of a row of [xyxy]. *)
Definition tolist (t : pyfloat * pyfloat * pyfloat * pyfloat) : list pyfloat :=
  let '(x1, y1, x2, y2) := t in [x1; y1; x2; y2].

(** ** Standard output

    A printed line is the list of the pieces of its f-string; numbers are
    kept as numbers ([FFloat d x] stands for [{x:.df}]), and [FValues d]
    stands for [{list(d.values())}] of a dict [d], whose values Python
    lists in the order of insertion, which the map does not record. *)

Inductive frag :=
| FStr (s : string)
| FInt (n : Z)
| FFloat (digits : nat) (x : pyfloat)
| FStrList (l : list string)
| FValues (d : gmap Z string).

Definition line := list frag.

(** ** The external libraries *)

(** The [inference_tta] module, when it imports. *)
Record TTAModule (World image model tta : Type) := mkTTAModule {
  (** [TTAPredictor(path, conf_threshold=, iou_threshold=, use_tta=)] *)
  TTAPredictor :
    string → pyfloat → pyfloat → bool → World → Result tta * World;
  (** [predictor.model] *)
  tta_model : tta → model;
  (** [predictor.predict_single(image, preprocess=)] *)
  tta_predict_single : tta → image → bool → World → Result Results * World
}.
Arguments TTAPredictor {_ _ _ _}.
Arguments tta_model {_ _ _ _}.
Arguments tta_predict_single {_ _ _ _}.

Record Externals (World image model tta : Type) := mkExternals {
  (** pathlib: [p.exists()], [p.is_file()], [p.is_dir()], [p.glob(pat)],
      [p.mkdir(parents=True, exist_ok=True)] *)
  Path_exists : World → Path → bool;
  Path_is_file : World → Path → bool;
  Path_is_dir : World → Path → bool;
  Path_glob : World → Path → string → Result (list Path);
  Path_mkdir : Path → World → Result unit * World;
  (** OpenCV: [cv2.imread] returns [None] when the file cannot be decoded;
      [cv2.imwrite] returns a flag; the drawing calls use the fixed font
      [FONT_HERSHEY_SIMPLEX] at scale 0.6 and thickness 1. *)
  cv2_imread : World → string → option image;
  cv2_imwrite : string → image → World → Result bool * World;
  cv2_rectangle : image → Z * Z → Z * Z → Z * Z * Z → Z → Result image;
  cv2_getTextSize : line → Z * Z;
  cv2_putText : image → line → Z * Z → Z * Z * Z → Result image;
  ndarray_shape : image → list Z;
  (** torch *)
  torch_cuda_is_available : World → bool;
  (** ultralytics: [YOLO(path)], [model.to(device)], [model.names],
      [model.predict(source=, conf=, iou=, device=, verbose=False)] *)
  YOLO : string → World → Result model * World;
  YOLO_to : model → string → World → Result unit * World;
  YOLO_names : model → gmap Z string;
  YOLO_predict :
    model → image → pyfloat → pyfloat → string → World →
    Result (list Results) * World;
  (** [from inference_tta import TTAPredictor]: [None] when the import
      raises [ImportError]. *)
  inference_tta : option (TTAModule World image model tta)
}.
Arguments Path_exists {_ _ _ _}.
Arguments Path_is_file {_ _ _ _}.
Arguments Path_is_dir {_ _ _ _}.
Arguments Path_glob {_ _ _ _}.
Arguments Path_mkdir {_ _ _ _}.
Arguments cv2_imread {_ _ _ _}.
Arguments cv2_imwrite {_ _ _ _}.
Arguments cv2_rectangle {_ _ _ _}.
Arguments cv2_getTextSize {_ _ _ _}.
Arguments cv2_putText {_ _ _ _}.
Arguments ndarray_shape {_ _ _ _}.
Arguments torch_cuda_is_available {_ _ _ _}.
Arguments YOLO {_ _ _ _}.
Arguments YOLO_to {_ _ _ _}.
Arguments YOLO_names {_ _ _ _}.
Arguments YOLO_predict {_ _ _ _}.
Arguments inference_tta {_ _ _ _}.

(** The calls into the model and image libraries, in the order made. *)
Inductive Call (image : Type) :=
| call_YOLO (weights : string)
| call_model_to (device : string)
| call_TTAPredictor (weights : string)
| call_imread (file : string)
| call_predict (img : image)
| call_predict_single (img : image)
| call_mkdir (dir : Path)
| call_imwrite (file : string) (img : image).
Arguments call_YOLO {_}.
Arguments call_model_to {_}.
Arguments call_TTAPredictor {_}.
Arguments call_imread {_}.
Arguments call_predict {_}.
Arguments call_predict_single {_}.
Arguments call_mkdir {_}.
Arguments call_imwrite {_}.

(** The state a run threads: the outside world, what was printed, the
    tracebacks sent to stderr, and the library calls made. *)
Record State (World image : Type) := mkState {
  world : World;
  stdout : list line;
  stderr : list Exception;
  calls : list (Call image)
}.
Arguments mkState {_ _}.
Arguments world {_ _}.
Arguments stdout {_ _}.
Arguments stderr {_ _}.
Arguments calls {_ _}.

(** The predictor object after [__init__]. *)
Record Predictor (model tta : Type) := mkPredictor {
  model_path : Path;
  conf_threshold : pyfloat;
  iou_threshold : pyfloat;
  use_tta : bool;
  device : string;
  predictor : option tta;
  model_ : model;
  class_names : gmap Z string
}.
Arguments mkPredictor {_ _}.
Arguments model_path {_ _}.
Arguments conf_threshold {_ _}.
Arguments iou_threshold {_ _}.
Arguments use_tta {_ _}.
Arguments device {_ _}.
Arguments predictor {_ _}.
Arguments model_ {_ _}.
Arguments class_names {_ _}.

(** The parsed command line ([argparse] has run). *)
Record Args := mkArgs {
  arg_source : string;
  arg_model : string;
  arg_conf : pyfloat;
  arg_iou : pyfloat;
  arg_device : option string;
  arg_output : string;
  arg_tta : bool;
  arg_no_save : bool
}.

(** ** The script *)

Section Script.

Context {World image model tta : Type}.
Context (lib : Externals World image model tta).

Abbreviation St := (State World image).
Abbreviation Pred := (Predictor model tta).

(** A computation: runs from a state, returns a value or raises, and
    leaves a state. *)
Definition M (A : Type) : Type := St → Result A * St.

Definition ret {A} (a : A) : M A := λ st, (inr a, st).

Definition bind {A B} (c : M A) (k : A → M B) : M B :=
  λ st, match c st with
        | (inl e, st') => (inl e, st')
        | (inr a, st') => k a st'
        end.

Definition raise {A} (e : Exception) : M A := λ st, (inl e, st).

(** [try: c  except Exception as e: h e] *)
Definition try_except {A} (c : M A) (h : Exception → M A) : M A :=
  λ st, match c st with
        | (inl e, st') => h e st'
        | (inr a, st') => (inr a, st')
        end.

Definition lift {A} (r : Result A) : M A := λ st, (r, st).

Notation "x <- c ;; k" := (bind c (λ x, k))
  (at level 100, c at next level, right associativity).
Notation "c ;; k" := (bind c (λ _, k))
  (at level 100, right associativity).

(** [print(...)] *)
Definition print (l : line) : M unit :=
  λ st, (inr tt, mkState (world st) (stdout st ++ [l]) (stderr st) (calls st)).

(** [traceback.print_exc()] *)
Definition print_exc (e : Exception) : M unit :=
  λ st, (inr tt, mkState (world st) (stdout st) (stderr st ++ [e]) (calls st)).

(** A query on the world. *)
Definition ask {A} (f : World → A) : M A := λ st, (inr (f (world st)), st).

(** A library call: recorded, then run on the world. *)
Definition call {A} (c : Call image) (f : World → Result A * World) : M A :=
  λ st, let '(r, w) := f (world st) in
        (r, mkState w (stdout st) (stderr st) (calls st ++ [c])).

Definition TTA_AVAILABLE : bool :=
  match inference_tta lib with Some _ => true | None => false end.

(** The module body, lines 46-53: the guarded import. *)
Definition module_body : M unit :=
  if TTA_AVAILABLE then ret tt
  else print [FStr "⚠️  TTA not available. Install dependencies for Test-Time Augmentation."].

(** *** [ObjectDetectionPredictor.__init__] *)
Definition __init__ (model_path : string) (conf_threshold iou_threshold : pyfloat)
    (device : option string) (use_tta : bool) : M Pred :=
  let model_path := pathlib.of_str model_path in
  found <- ask (λ w, Path_exists lib w model_path) ;;
  if negb found then
    raise (FileNotFoundError ("Model not found: " +:+ pathlib.str model_path))
  else
    let use_tta := use_tta && TTA_AVAILABLE in
    device <- match device with
              | None =>
                  cuda <- ask (torch_cuda_is_available lib) ;;
                  ret (if cuda : bool then "cuda" else "cpu")
              | Some d => ret d
              end ;;
    print [FStr "Loading model from: "; FStr (pathlib.str model_path)] ;;
    print [FStr "Using device: "; FStr device] ;;
    pm <- (if use_tta then
             print [FStr "🚀 Using Test-Time Augmentation for enhanced accuracy"] ;;
             match inference_tta lib with
             | Some m =>
                 p <- call (call_TTAPredictor (pathlib.str model_path))
                        (TTAPredictor m (pathlib.str model_path)
                           conf_threshold iou_threshold true) ;;
                 ret (Some p, tta_model m p)
             | None => raise (NameError "name 'TTAPredictor' is not defined")
             end
           else
             mdl <- call (call_YOLO (pathlib.str model_path))
                      (YOLO lib (pathlib.str model_path)) ;;
             call (call_model_to device) (YOLO_to lib mdl device) ;;
             ret (None, mdl)) ;;
    let class_names := YOLO_names lib pm.2 in
    print [FStr "✅ Model loaded successfully!"] ;;
    print [FStr "📦 Classes: "; FValues class_names] ;;
    print [] ;;
    ret (mkPredictor model_path conf_threshold iou_threshold use_tta device
           pm.1 pm.2 class_names).

(** *** [_extract_predictions] *)

(** The dictionary built for row [i]; [int(boxes.cls[i])] is evaluated
    for ['class_id'] and again as the key into [self.class_names]. *)
Definition extract_one (class_names : gmap Z string) (b : Box) : Result Detection :=
  let? cid := py_int (cls b) in
  let? cid' := py_int (cls b) in
  let? cname := match class_names !! cid' with
                | Some n => inr n
                | None => inl (KeyError cid')
                end in
  inr (mkDetection cid cname (conf b) (tolist (xyxy b))).

Fixpoint extract_boxes (class_names : gmap Z string) (boxes : list Box)
    (predictions : list Detection) : Result (list Detection) :=
  match boxes with
  | [] => inr predictions
  | b :: rest =>
      let? pred := extract_one class_names b in
      extract_boxes class_names rest (predictions ++ [pred])
  end.

Definition _extract_predictions (self : Pred) (results : Results)
    : Result (list Detection) :=
  match results with
  | WithBoxes boxes => extract_boxes (class_names self) boxes []
  | BoxesNone => inl (TypeError "object of type 'NoneType' has no len()")
  | NoBoxesAttr => inr []
  end.

(** *** [_draw_predictions]

    The drawing calls update the copy of the image they are given and
    the result is that copy. *)
Definition colors : list (Z * Z * Z) :=
  [ (255, 0, 0); (0, 255, 0); (0, 0, 255); (255, 255, 0);
    (255, 0, 255); (0, 255, 255); (128, 0, 128) ].

Fixpoint map_int (l : list pyfloat) : Result (list Z) :=
  match l with
  | [] => inr []
  | x :: rest =>
      let? n := py_int x in
      let? ns := map_int rest in
      inr (n :: ns)
  end.

(** [x1, y1, x2, y2 = map(int, l)] *)
Definition unpack4_int (l : list pyfloat) : Result (Z * Z * Z * Z) :=
  let? ns := map_int (take 5 l) in
  match ns with
  | [x1; y1; x2; y2] => inr (x1, y1, x2, y2)
  | _ :: _ :: _ :: _ :: _ :: _ =>
      inl (ValueError "too many values to unpack (expected 4)")
  | _ =>
      inl (ValueError ("not enough values to unpack (expected 4, got "
                       +:+ pretty (length ns) +:+ ")"))
  end.

Definition draw_one (image0 : image) (pred : Detection) : Result image :=
  let class_id := class_id pred in
  let class_name := class_name pred in
  let confidence := confidence pred in
  let? (x1, y1, x2, y2) := unpack4_int (bbox pred) in
  let? color := match colors !! Z.to_nat (class_id `mod` Z.of_nat (length colors)) with
                | Some c => inr c
                | None => inl (IndexError "list index out of range")
                end in
  let? image1 := cv2_rectangle lib image0 (x1, y1) (x2, y2) color 2 in
  let label := [FStr class_name; FStr " "; FFloat 2 confidence] in
  let '(label_w, label_h) := cv2_getTextSize lib label in
  let? image2 := cv2_rectangle lib image1 (x1, y1 - label_h - 10)
                   (x1 + label_w, y1) color (-1) in
  cv2_putText lib image2 label (x1, y1 - 5) (255, 255, 255).

Fixpoint _draw_predictions (image0 : image) (predictions : list Detection)
    : Result image :=
  match predictions with
  | [] => inr image0
  | pred :: rest =>
      let? image1 := draw_one image0 pred in
      _draw_predictions image1 rest
  end.

(** *** [predict_image] *)

(** [f"{image_path.stem}_predicted{image_path.suffix}"] *)
Definition output_name (image_path : Path) : string :=
  pathlib.stem image_path +:+ "_predicted" +:+ pathlib.suffix image_path.

(** Lines 143-152: inference through the TTA predictor or the model. *)
Definition run_inference (self : Pred) (img : image) : M Results :=
  if use_tta self then
    match inference_tta lib, predictor self with
    | Some m, Some p =>
        call (call_predict_single img) (tta_predict_single m p img true)
    | _, _ => raise (AttributeError "'ObjectDetectionPredictor' object has no attribute 'predictor'")
    end
  else
    rs <- call (call_predict img)
            (YOLO_predict lib (model_ self) img (conf_threshold self)
               (iou_threshold self) (device self)) ;;
    match rs with
    | r :: _ => ret r
    | [] => raise (IndexError "list index out of range")
    end.

Definition predict_image (self : Pred) (image_path : Path)
    (save_output : bool) (output_dir : option Path) : M Prediction :=
  found <- ask (λ w, Path_exists lib w image_path) ;;
  if negb found then
    raise (FileNotFoundError ("Image not found: " +:+ pathlib.str image_path))
  else
    read <- call (call_imread (pathlib.str image_path))
              (λ w, (inr (cv2_imread lib w (pathlib.str image_path)), w)) ;;
    match read with
    | None =>
        raise (ValueError ("Failed to read image: " +:+ pathlib.str image_path))
    | Some img =>
        results <- run_inference self img ;;
        predictions <- lift (_extract_predictions self results) ;;
        (if save_output then
           let output_dir :=
             match output_dir with
             | None => pathlib.of_str "predictions"
             | Some d => d
             end in
           call (call_mkdir output_dir) (Path_mkdir lib output_dir) ;;
           annotated_image <- lift (_draw_predictions img predictions) ;;
           let output_path := output_dir // output_name image_path in
           call (call_imwrite (pathlib.str output_path) annotated_image)
             (cv2_imwrite lib (pathlib.str output_path) annotated_image) ;;
           print [FStr "💾 Saved: "; FStr (pathlib.str output_path)]
         else ret tt) ;;
        ret (mkPrediction (pathlib.str image_path)
               (take 2 (ndarray_shape lib img))
               predictions
               (length predictions))
    end.

(** *** [predict_batch] *)
Definition default_extensions : list string :=
  [".jpg"; ".jpeg"; ".png"; ".bmp"].

(** A query on the world that may raise. *)
Definition ask_r {A} (f : World → Result A) : M A :=
  λ st, (f (world st), st).

(** Lines 202-205: the two globs per extension. *)
Fixpoint find_images (source_dir : Path) (extensions : list string)
    (image_files : list Path) : M (list Path) :=
  match extensions with
  | [] => ret image_files
  | ext :: rest =>
      lower <- ask_r (λ w, Path_glob lib w source_dir ("*" +:+ ext)) ;;
      let image_files := image_files ++ lower in
      upper <- ask_r (λ w, Path_glob lib w source_dir ("*" +:+ Str.upper ext)) ;;
      let image_files := image_files ++ upper in
      find_images source_dir rest image_files
  end.

(** Lines 216-224: the loop over the images found. *)
Fixpoint process_images (self : Pred) (image_files : list Path)
    (save_output : bool) (output_dir : option Path)
    (all_predictions : list Prediction) : M (list Prediction) :=
  match image_files with
  | [] => ret all_predictions
  | img_path :: rest =>
      print [FStr "Processing: "; FStr (pathlib.name img_path); FStr "..."] ;;
      all_predictions <-
        try_except
          (pred <- predict_image self img_path save_output output_dir ;;
           let all_predictions := all_predictions ++ [pred] in
           print [FStr "  ✅ Detected "; FInt (Z.of_nat (num_detections pred));
                  FStr " objects"] ;;
           ret all_predictions)
          (λ e,
           print [FStr "  ❌ Error: "; FStr (str_exc e)] ;;
           ret all_predictions) ;;
      print [] ;;
      process_images self rest save_output output_dir all_predictions
  end.

Definition predict_batch (self : Pred) (source_dir : Path)
    (save_output : bool) (output_dir : option Path)
    (extensions : list string) : M (list Prediction) :=
  found <- ask (λ w, Path_exists lib w source_dir) ;;
  if negb found then
    raise (FileNotFoundError ("Directory not found: " +:+ pathlib.str source_dir))
  else
    image_files <- find_images source_dir extensions [] ;;
    match image_files with
    | [] =>
        print [FStr "⚠️  No images found in "; FStr (pathlib.str source_dir)] ;;
        ret []
    | _ :: _ =>
        print [FStr "📁 Found "; FInt (Z.of_nat (length image_files));
               FStr " images"] ;;
        print [] ;;
        process_images self image_files save_output output_dir []
    end.

(** *** [main] *)

(** Lines 398-399: the numbered list of detections. *)
Fixpoint print_detections (i : Z) (preds : list Detection) : M unit :=
  match preds with
  | [] => ret tt
  | pred :: rest =>
      print [FStr "  "; FInt i; FStr ". "; FStr (class_name pred);
             FStr " (confidence: "; FFloat 3 (confidence pred); FStr ")"] ;;
      print_detections (i + 1) rest
  end.

(** Lines 384-401: the single-image branch. *)
Definition main_single (predictor : Pred) (source : Path) (args : Args)
    (output_dir : option Path) : M unit :=
  print [FStr "🔍 Running inference on: "; FStr (pathlib.str source)] ;;
  print [] ;;
  result <- predict_image predictor source (negb (arg_no_save args)) output_dir ;;
  print [] ;;
  print [FStr (Str.repeat "=" 80)] ;;
  print [FStr "📊 RESULTS"] ;;
  print [FStr (Str.repeat "=" 80)] ;;
  print [FStr "Image: "; FStr (image_path result)] ;;
  print [FStr "Detections: "; FInt (Z.of_nat (num_detections result))] ;;
  print [] ;;
  match predictions result with
  | _ :: _ =>
      print [FStr "Detected objects:"] ;;
      print_detections 1 (predictions result)
  | [] => print [FStr "No objects detected."]
  end.

(** Lines 414-419: the summary of a batch. *)
Definition print_summary (results : list Prediction) : M unit :=
  print [FStr "Total images processed: "; FInt (Z.of_nat (length results))] ;;
  let total_detections := sum_list (num_detections <$> results) in
  print [FStr "Total detections: "; FInt (Z.of_nat total_detections)] ;;
  match results with
  | _ :: _ =>
      avg_detections <- lift (py_truediv total_detections (length results)) ;;
      print [FStr "Average detections per image: "; FFloat 2 avg_detections]
  | [] => ret tt
  end.

(** Lines 405-419: the directory branch. *)
Definition main_batch (predictor : Pred) (source : Path) (args : Args)
    (output_dir : option Path) : M unit :=
  print [FStr "🔍 Running batch inference on: "; FStr (pathlib.str source)] ;;
  print [] ;;
  results <- predict_batch predictor source (negb (arg_no_save args))
               output_dir default_extensions ;;
  print [] ;;
  print [FStr (Str.repeat "=" 80)] ;;
  print [FStr "📊 SUMMARY"] ;;
  print [FStr (Str.repeat "=" 80)] ;;
  print_summary results.

(** Lines 359-362. *)
Definition print_header : M unit :=
  print [FStr (Str.repeat "=" 80)] ;;
  print [FStr "🛰️  Space Station Safety Object Detection - Inference"] ;;
  print [FStr (Str.repeat "=" 80)] ;;
  print [].

(** Lines 365-375: the guarded construction; [inl 1] is [return 1]. *)
Definition main_load (args : Args) : M (Z + Pred) :=
  try_except
    (predictor <- __init__ (arg_model args) (arg_conf args) (arg_iou args)
                    (arg_device args) (arg_tta args) ;;
     ret (inr predictor))
    (λ e,
     print [FStr "❌ Error loading model: "; FStr (str_exc e)] ;;
     ret (inl 1)).

(** Lines 378-437: the guarded inference. *)
Definition main_infer (predictor : Pred) (args : Args) : M Z :=
  let source := pathlib.of_str (arg_source args) in
  let output_dir :=
    if negb (arg_no_save args) then Some (pathlib.of_str (arg_output args))
    else None in
  try_except
    (is_file <- ask (λ w, Path_is_file lib w source) ;;
     returned <-
       (if is_file : bool then
          main_single predictor source args output_dir ;; ret None
        else
          is_dir <- ask (λ w, Path_is_dir lib w source) ;;
          if is_dir : bool then
            main_batch predictor source args output_dir ;; ret None
          else
            print [FStr "❌ Error: "; FStr (pathlib.str source);
                   FStr " is neither a file nor a directory"] ;;
            ret (Some 1)) ;;
     match returned with
     | Some code => ret code
     | None =>
         print [] ;;
         print [FStr "✅ Inference completed successfully!"] ;;
         (if negb (arg_no_save args) then
            print [FStr "📁 Predictions saved to: ";
                   FStr (match output_dir with
                         | Some d => pathlib.str d
                         | None => "None"
                         end)]
          else ret tt) ;;
         print [] ;;
         ret 0
     end)
    (λ e,
     print [FStr "❌ Error during inference: "; FStr (str_exc e)] ;;
     print_exc e ;;
     ret 1).

Definition main (args : Args) : M Z :=
  print_header ;;
  loaded <- main_load args ;;
  match loaded with
  | inl code => ret code
  | inr predictor => main_infer predictor args
  end.

(** The script run from the command line: the module body, then
    [sys.exit(main())]. *)
Definition script (args : Args) : M Z :=
  module_body ;;
  main args.

End Script.

Arguments M : clear implicits.

(** The state a computation leaves. *)
Definition exec {World image A} (c : M World image A) (st : State World image)
    : State World image := (c st).2.

(** ** Vocabulary of the statements *)

Section Vocabulary.

Context {World image model tta : Type}.
Context (lib : Externals World image model tta).

Abbreviation St := (State World image).
Abbreviation Pred := (Predictor model tta).

Implicit Types (st : St) (self : Pred) (p : Path).

(** [st] with lines appended to what was printed. *)
Definition printed (st : St) (ls : list line) : St :=
  mkState (world st) (stdout st ++ ls) (stderr st) (calls st).

(** [st] with calls appended to the calls made. *)
Definition called (st : St) (cs : list (Call image)) : St :=
  mkState (world st) (stdout st) (stderr st) (calls st ++ cs).

(** The inference call [run_inference] records. *)
Definition inference_call self (img : image) : Call image :=
  if use_tta self then call_predict_single img else call_predict img.

(** The directory [predict_image] saves into. *)
Definition save_dir (output_dir : option Path) : Path :=
  match output_dir with
  | None => pathlib.of_str "predictions"
  | Some d => d
  end.

(** The facts behind a returned result: the path exists, the image was
    read, inference and extraction succeeded and, when saving, the
    directory was made, the boxes drawn and the file written. *)
Inductive predict_image_trace self p (save_output : bool)
    (output_dir : option Path) st (r : Prediction) st' : Prop :=
| trace_intro (img : image) (results : Results) (st1 : St) :
    Path_exists lib (world st) p = true →
    cv2_imread lib (world st) (pathlib.str p) = Some img →
    run_inference lib self img (called st [call_imread (pathlib.str p)])
      = (inr results, st1) →
    _extract_predictions self results = inr (predictions r) →
    r = mkPrediction (pathlib.str p) (take 2 (ndarray_shape lib img))
          (predictions r) (length (predictions r)) →
    (if save_output then
       ∃ annotated, _draw_predictions lib img (predictions r) = inr annotated
         ∧ stdout st' =
             stdout st ++ [[FStr "💾 Saved: ";
                            FStr (pathlib.str (save_dir output_dir // output_name p))]]
         ∧ calls st' =
             calls st ++ [call_imread (pathlib.str p);
                          inference_call self img;
                          call_mkdir (save_dir output_dir);
                          call_imwrite
                            (pathlib.str (save_dir output_dir // output_name p))
                            annotated]
     else st' = st1) →
    predict_image_trace self p save_output output_dir st r st'.

(** The detection record built from one row of boxes. *)
Definition detection_of (names : gmap Z string) (b : Box) (d : Detection) : Prop :=
  py_int (cls b) = inr (class_id d)
  ∧ names !! class_id d = Some (class_name d)
  ∧ confidence d = conf b
  ∧ bbox d = tolist (xyxy b).

(** The data-model invariant of a detection record. *)
Definition detection_wf (names : gmap Z string) (d : Detection) : Prop :=
  names !! class_id d = Some (class_name d) ∧ length (bbox d) = 4%nat.

(** The results kept from a list of per-image outcomes: those that did
    not raise, in order. *)
Definition successes (outcomes : list (Result Prediction)) : list Prediction :=
  omap (λ o, match o with inr pred => Some pred | inl _ => None end) outcomes.

(** The line printed after an image: the count on success, the
    exception's message when it raised. *)
Definition report (o : Result Prediction) : line :=
  match o with
  | inr pred =>
      [FStr "  ✅ Detected "; FInt (Z.of_nat (num_detections pred));
       FStr " objects"]
  | inl e => [FStr "  ❌ Error: "; FStr (str_exc e)]
  end.

(** A batch in the words of the specification: every image is
    processed, in order, whatever happened to the ones before it; its
    outcome (a result or an exception) is logged; the next image starts
    from the state the previous one left. *)
Inductive batch_run self (save_output : bool) (output_dir : option Path)
    : list Path → St → list (Result Prediction) → St → Prop :=
| batch_done st :
    batch_run self save_output output_dir [] st [] st
| batch_step p rest st o st1 os st2 :
    predict_image lib self p save_output output_dir
      (printed st [[FStr "Processing: "; FStr (pathlib.name p); FStr "..."]])
      = (o, st1) →
    batch_run self save_output output_dir rest (printed st1 [report o; []]) os st2 →
    batch_run self save_output output_dir (p :: rest) st (o :: os) st2.

(** The second line [print_summary] prints. *)
Definition total_line (results : list Prediction) : line :=
  [FStr "Total detections: ";
   FInt (Z.of_nat (sum_list (num_detections <$> results)))].

(** What [predict_batch] prints once the images are listed, lines
    207-212. *)
Definition batch_banner (source_dir : Path) (image_files : list Path)
    : list line :=
  match image_files with
  | [] => [[FStr "⚠️  No images found in "; FStr (pathlib.str source_dir)]]
  | _ :: _ =>
      [[FStr "📁 Found "; FInt (Z.of_nat (length image_files)); FStr " images"];
       []]
  end.

End Vocabulary.

(** ** A small concrete world

    An in-memory file system and a detector that reports the boxes stored
    in the picture; used to run the script on concrete inputs. *)

Module Demo.

(** A picture: its shape, the boxes the detector finds in it and the
    labels drawn on it so far. *)
Record picture := mkPicture {
  pic_shape : list Z;
  pic_boxes : list Box;
  pic_labels : list line
}.

Inductive node :=
| RegularFile (decoded : option picture)
| Directory (entries : list string).

Definition fs := list (Path * node).

Fixpoint parts_eqb (l1 l2 : list string) : bool :=
  match l1, l2 with
  | [], [] => true
  | x :: l1', y :: l2' => String.eqb x y && parts_eqb l1' l2'
  | _, _ => false
  end.

Definition path_eqb (p q : Path) : bool :=
  String.eqb (root p) (root q) && parts_eqb (parts p) (parts q).

Fixpoint lookup_path (w : fs) (p : Path) : option node :=
  match w with
  | [] => None
  | (q, n) :: rest => if path_eqb q p then Some n else lookup_path rest p
  end.

Definition endswith (suffix s : string) : bool :=
  String.prefix (String.rev suffix) (String.rev s).

(** [glob] for the patterns ["*" + suffix]. *)
Definition glob (w : fs) (d : Path) (pattern : string) : Result (list Path) :=
  match lookup_path w d with
  | Some (Directory entries) =>
      inr ((λ n, d // n) <$> List.filter (endswith (Str.drop 1 pattern)) entries)
  | _ => inr []
  end.

Definition exists_ (w : fs) (p : Path) : bool :=
  match lookup_path w p with Some _ => true | None => false end.

Definition is_file (w : fs) (p : Path) : bool :=
  match lookup_path w p with Some (RegularFile _) => true | _ => false end.

Definition is_dir (w : fs) (p : Path) : bool :=
  match lookup_path w p with Some (Directory _) => true | _ => false end.

Definition mkdir (p : Path) (w : fs) : Result unit * fs :=
  match lookup_path w p with
  | Some (RegularFile _) => (inl (LibraryError "FileExistsError" (pathlib.str p)), w)
  | Some (Directory _) => (inr tt, w)
  | None => (inr tt, (p, Directory []) :: w)
  end.

Definition imread (w : fs) (file : string) : option picture :=
  match lookup_path w (pathlib.of_str file) with
  | Some (RegularFile (Some pic)) => Some pic
  | _ => None
  end.

Definition imwrite (file : string) (pic : picture) (w : fs) : Result bool * fs :=
  (inr true, (pathlib.of_str file, RegularFile (Some pic)) :: w).

Definition putText (pic : picture) (label : line) (org : Z * Z) (color : Z * Z * Z)
    : Result picture :=
  inr (mkPicture (pic_shape pic) (pic_boxes pic) (pic_labels pic ++ [label])).

(** A model is its table of class names; weights load from [.pt] files. *)
Definition names : gmap Z string :=
  Eval vm_compute in
    list_to_map [(0, "OxygenTank"); (1, "NitrogenTank"); (2, "FirstAidBox")].

Definition load (weights : string) (w : fs) : Result (gmap Z string) * fs :=
  if endswith ".pt" weights then (inr names, w)
  else (inl (LibraryError "RuntimeError" "invalid weights file"), w).

Definition detect (m : gmap Z string) (pic : picture) (conf iou : pyfloat)
    (device : string) (w : fs) : Result (list Results) * fs :=
  (inr [WithBoxes (pic_boxes pic)], w).

(** The optional [inference_tta] module: its predictor wraps the same
    model and reports the boxes in reverse order. *)
Definition tta_module : TTAModule fs picture (gmap Z string) unit :=
  {| TTAPredictor := λ weights _ _ _ w,
       if endswith ".pt" weights then (inr tt, w)
       else (inl (LibraryError "RuntimeError" "invalid weights file"), w);
     tta_model := λ _, names;
     tta_predict_single := λ _ pic _ w, (inr (WithBoxes (reverse (pic_boxes pic))), w) |}.

Definition libraries (glob_impl : fs → Path → string → Result (list Path))
    (tta_import : option (TTAModule fs picture (gmap Z string) unit))
    : Externals fs picture (gmap Z string) unit :=
  {| Path_exists := exists_;
     Path_is_file := is_file;
     Path_is_dir := is_dir;
     Path_glob := glob_impl;
     Path_mkdir := mkdir;
     cv2_imread := imread;
     cv2_imwrite := imwrite;
     cv2_rectangle := λ pic _ _ _ _, inr pic;
     cv2_getTextSize := λ _, (60, 12);
     cv2_putText := putText;
     ndarray_shape := pic_shape;
     torch_cuda_is_available := λ _, false;
     YOLO := load;
     YOLO_to := λ _ _ w, (inr tt, w);
     YOLO_names := λ m, m;
     YOLO_predict := detect;
     inference_tta := tta_import |}.

(** The libraries without the optional [inference_tta] module, with it,
    and with a directory listing that fails. *)
Definition lib : Externals fs picture (gmap Z string) unit :=
  libraries glob None.

Definition lib_tta : Externals fs picture (gmap Z string) unit :=
  libraries glob (Some tta_module).

Definition lib_flaky : Externals fs picture (gmap Z string) unit :=
  libraries (λ _ _ _, inl (LibraryError "OSError" "Input/output error")) None.

Definition tank : Box :=
  mkBox (Finite (10 # 1), Finite (20 # 1), Finite (110 # 1), Finite (220 # 1))
    (Finite (9 # 10)) (Finite (0 # 1)).

Definition first_aid : Box :=
  mkBox (Finite (5 # 2), Finite (7 # 2), Finite (50 # 1), Finite (60 # 1))
    (Finite (3 # 4)) (Finite (2 # 1)).

(** A box whose class the model does not know. *)
Definition unknown : Box :=
  mkBox (Finite (0 # 1), Finite (0 # 1), Finite (1 # 1), Finite (1 # 1))
    (Finite (1 # 2)) (Finite (9 # 1)).

Definition cabin : picture := mkPicture [480; 640; 3] [tank; first_aid] [].
Definition empty_room : picture := mkPicture [480; 640; 3] [] [].
Definition odd : picture := mkPicture [48; 64; 3] [unknown] [].

Definition disk : fs :=
  [ (pathlib.of_str "best.pt", RegularFile None);
    (pathlib.of_str "shots", Directory ["cabin.jpg"; "notes.txt"; "broken.png"; "odd.PNG"; "room.jpeg"]);
    (pathlib.of_str "shots/cabin.jpg", RegularFile (Some cabin));
    (pathlib.of_str "shots/notes.txt", RegularFile None);
    (pathlib.of_str "shots/broken.png", RegularFile None);
    (pathlib.of_str "shots/odd.PNG", RegularFile (Some odd));
    (pathlib.of_str "shots/room.jpeg", RegularFile (Some empty_room));
    (pathlib.of_str "docs", Directory ["readme.md"; "notes.txt"]);
    (pathlib.of_str "docs/readme.md", RegularFile None) ].

Definition start : State fs picture := mkState disk [] [] [].

Definition args (source : string) : Args :=
  mkArgs source "best.pt" (Finite (1 # 4)) (Finite (9 # 20)) None "predictions"
    false false.

(** The predictor the demo world builds from [best.pt]. *)
Definition self : Predictor (gmap Z string) unit :=
  mkPredictor (pathlib.of_str "best.pt") (Finite (1 # 4)) (Finite (9 # 20))
    false "cpu" None names names.

(** The result expected for [shots/cabin.jpg] and for [shots/room.jpeg]. *)
Definition cabin_result : Prediction :=
  mkPrediction "shots/cabin.jpg" [480; 640]
    [ mkDetection 0 "OxygenTank" (Finite (9 # 10))
        [Finite (10 # 1); Finite (20 # 1); Finite (110 # 1); Finite (220 # 1)];
      mkDetection 2 "FirstAidBox" (Finite (3 # 4))
        [Finite (5 # 2); Finite (7 # 2); Finite (50 # 1); Finite (60 # 1)] ]
    2.

Definition room_result : Prediction :=
  mkPrediction "shots/room.jpeg" [480; 640] [] 0.

(** The state after [predict_image] on [shots/cabin.jpg], saving to [out]. *)
Definition cabin_state : State fs picture :=
  Eval vm_compute in
  exec (predict_image lib self (pathlib.of_str "shots/cabin.jpg") true
          (Some (pathlib.of_str "out"))) start.

(** The state after [__init__] on [best.pt]. *)
Definition loaded : State fs picture :=
  Eval vm_compute in
  exec (__init__ lib "best.pt" (Finite (1 # 4)) (Finite (9 # 20)) None false) start.

(** The images the globs find in [shots], in order. *)
Definition shots_files : list Path :=
  [ pathlib.of_str "shots/cabin.jpg"; pathlib.of_str "shots/room.jpeg";
    pathlib.of_str "shots/broken.png"; pathlib.of_str "shots/odd.PNG" ].



End Demo.

(** ** Vocabulary of the further statements *)

Section Effects.

Context {World image model tta : Type}.
Context (lib : Externals World image model tta).

Abbreviation St := (State World image).
Abbreviation Pred := (Predictor model tta).

Implicit Types (st : St) (self : Pred) (p : Path).

(** The calls that write to the file system: [mkdir] and [cv2.imwrite]. *)
Definition is_write (c : Call image) : bool :=
  match c with
  | call_mkdir _ | call_imwrite _ _ => true
  | _ => false
  end.

Definition writes (cs : list (Call image)) : list (Call image) :=
  List.filter is_write cs.

(** A computation that issues no write, however it ends. *)
Definition no_writes {A} (c : M World image A) : Prop :=
  ∀ st r st', c st = (r, st') → writes (calls st') = writes (calls st).

(** A float on which [int] does not raise. *)
Definition is_finite (x : pyfloat) : bool :=
  match x with
  | Finite _ => true
  | _ => false
  end.

(** A row of boxes [_extract_predictions] can turn into a record: its
    class is a finite number whose integer part is a key of the names. *)
Definition known_class (names : gmap Z string) (b : Box) : Prop :=
  ∃ k, py_int (cls b) = inr k ∧ is_Some (names !! k).

(** The data-model invariant of a prediction result. *)
Definition prediction_wf (names : gmap Z string) (r : Prediction) : Prop :=
  num_detections r = length (predictions r)
  ∧ Forall (detection_wf names) (predictions r).

(** A string of ASCII characters, on which [Str.upper] is [str.upper]. *)
Definition is_ascii_char (c : ascii) : bool := (nat_of_ascii c <? 128)%nat.

Fixpoint is_ascii (s : string) : bool :=
  match s with
  | EmptyString => true
  | String c s' => is_ascii_char c && is_ascii s'
  end.


(** The device [__init__] settles on, lines 88-91. *)
Definition chosen_device (w : World) (device : option string) : string :=
  match device with
  | Some d => d
  | None => if torch_cuda_is_available lib w then "cuda" else "cpu"
  end.

End Effects.

Module DemoMore.

(** A detection with a coordinate that is not a number, and one with a
    class id outside the palette. *)
Definition blurred : Detection :=
  mkDetection 1 "NitrogenTank" (Finite (1 # 2))
    [Finite (1 # 1); NaN; Finite (3 # 1); Finite (4 # 1)].

Definition far_class : Detection :=
  mkDetection (-3) "Spare" (Finite (1 # 2))
    [Finite (1 # 1); Finite (2 # 1); Finite (3 # 1); Finite (4 # 1)].

(** The state after [predict_image] on [shots/cabin.jpg] without saving. *)
Definition cabin_unsaved : State Demo.fs Demo.picture :=
  Eval vm_compute in
  exec (predict_image Demo.lib Demo.self (pathlib.of_str "shots/cabin.jpg") false
          None) Demo.start.

(** The state after [predict_image] on [shots/odd.PNG], which raises. *)
Definition odd_state : State Demo.fs Demo.picture :=
  Eval vm_compute in
  exec (predict_image Demo.lib Demo.self (pathlib.of_str "shots/odd.PNG") true
          None) Demo.start.

(** The state after [predict_batch] on [shots] without saving. *)
Definition batch_unsaved : State Demo.fs Demo.picture :=
  Eval vm_compute in
  exec (predict_batch Demo.lib Demo.self (pathlib.of_str "shots") false None
          default_extensions) Demo.start.

(** The state after [predict_batch] on [shots], saving to [predictions]. *)
Definition batch_saved : State Demo.fs Demo.picture :=
  Eval vm_compute in
  exec (predict_batch Demo.lib Demo.self (pathlib.of_str "shots") true None
          default_extensions) Demo.start.

(** The command line [--source shots --no-save] and the state [main]
    leaves on it. *)
Definition args_no_save : Args :=
  mkArgs "shots" "best.pt" (Finite (1 # 4)) (Finite (9 # 20)) None "predictions"
    false true.

Definition main_no_save : State Demo.fs Demo.picture :=
  Eval vm_compute in exec (main Demo.lib args_no_save) Demo.start.

(** The state after the header, and the one [main] leaves when the model
    file is missing. *)
Definition after_header : State Demo.fs Demo.picture :=
  Eval vm_compute in exec print_header Demo.start.


(** The predictor the demo world builds with the TTA module imported. *)
Definition self_tta : Predictor (gmap Z string) unit :=
  mkPredictor (pathlib.of_str "best.pt") (Finite (1 # 4)) (Finite (9 # 20))
    true "cpu" (Some tt) Demo.names Demo.names.

Definition loaded_tta : State Demo.fs Demo.picture :=
  Eval vm_compute in
  exec (__init__ Demo.lib_tta "best.pt" (Finite (1 # 4)) (Finite (9 # 20)) None true)
    Demo.start.

(** The state in which [main] constructs the predictor and the one it
    is left in, for a run on the demo world. *)
Definition loaded_main : State Demo.fs Demo.picture :=
  Eval vm_compute in
  exec (__init__ Demo.lib "best.pt" (Finite (1 # 4)) (Finite (9 # 20)) None false)
    after_header.

(** The state [predict_image] leaves when [main] runs it on the
    unreadable [shots/broken.png]. *)
Definition broken_state : State Demo.fs Demo.picture :=
  Eval vm_compute in
  exec (predict_image Demo.lib Demo.self (pathlib.of_str "shots/broken.png") true
          (Some (pathlib.of_str "predictions")))
    (mkState (world loaded_main)
       (stdout loaded_main
        ++ [[FStr "🔍 Running inference on: "; FStr "shots/broken.png"]; []])
       (stderr loaded_main) (calls loaded_main)).

(** What the globs of one extension find in [shots]. *)
Definition shots_lower (ext : string) : list Path :=
  match Demo.glob Demo.disk (pathlib.of_str "shots") ("*" +:+ ext) with
  | inr l => l
  | inl _ => []
  end.

Definition shots_upper (ext : string) : list Path :=
  shots_lower (Str.upper ext).

End DemoMore.

Module DemoReadOnly.

(** The demo libraries on a disk that takes no new file: [cv2.imwrite]
    returns [False] and leaves the file system as it was. *)
Definition lib : Externals Demo.fs Demo.picture (gmap Z string) unit :=
  {| Path_exists := Demo.exists_;
     Path_is_file := Demo.is_file;
     Path_is_dir := Demo.is_dir;
     Path_glob := Demo.glob;
     Path_mkdir := Demo.mkdir;
     cv2_imread := Demo.imread;
     cv2_imwrite := λ _ _ w, (inr false, w);
     cv2_rectangle := λ pic _ _ _ _, inr pic;
     cv2_getTextSize := λ _, (60, 12);
     cv2_putText := Demo.putText;
     ndarray_shape := Demo.pic_shape;
     torch_cuda_is_available := λ _, false;
     YOLO := Demo.load;
     YOLO_to := λ _ _ w, (inr tt, w);
     YOLO_names := λ m, m;
     YOLO_predict := Demo.detect;
     inference_tta := None |}.

(** The state after [predict_image] on [shots/cabin.jpg], saving to
    [out], and after [main] on the same image. *)
Definition cabin_state : State Demo.fs Demo.picture :=
  Eval vm_compute in
  exec (predict_image lib Demo.self (pathlib.of_str "shots/cabin.jpg") true
          (Some (pathlib.of_str "out"))) Demo.start.

End DemoReadOnly.

(** ** Facts about paths *)

Section PathFacts.

Implicit Types (s t : string) (p dir : Path).

Lemma append_cons (c : ascii) s t : String c s +:+ t = String c (s +:+ t).
Proof. reflexivity. Qed.

Lemma append_empty_r s : s +:+ "" = s.
Proof. induction s as [|c s IH]; [done|]. by rewrite append_cons, IH. Qed.

Lemma take_drop (i : nat) s : Str.take i s +:+ Str.drop i s = s.
Proof.
  revert s. induction i as [|i IH]; intros [|c s]; cbn; try done.
  by rewrite append_cons, IH.
Qed.

(** [p.stem + p.suffix == p.name] *)
Lemma stem_suffix p : pathlib.stem p +:+ pathlib.suffix p = pathlib.name p.
Proof.
  unfold pathlib.stem, pathlib.suffix.
  destruct (pathlib.has_suffix _); [apply take_drop | apply append_empty_r].
Qed.

Lemma contains_app (c : ascii) s t :
  Str.contains c (s +:+ t) = Str.contains c s || Str.contains c t.
Proof.
  induction s as [|d s IH]; [done|].
  rewrite append_cons. cbn. by rewrite IH, orb_assoc.
Qed.

Lemma contains_take (c : ascii) (i : nat) s :
  Str.contains c s = false → Str.contains c (Str.take i s) = false.
Proof.
  revert s. induction i as [|i IH]; intros [|d s]; cbn; try done.
  intros [Hd Hs]%orb_false_elim. by rewrite Hd, IH.
Qed.

Lemma contains_drop (c : ascii) (i : nat) s :
  Str.contains c s = false → Str.contains c (Str.drop i s) = false.
Proof.
  revert s. induction i as [|i IH]; intros [|d s]; cbn; try done.
  intros [Hd Hs]%orb_false_elim. by apply IH.
Qed.

Lemma split_without (sep : ascii) s :
  Str.contains sep s = false → Str.split sep s = [s].
Proof.
  induction s as [|d s IH]; cbn; [done|].
  intros [Hd Hs]%orb_false_elim. by rewrite Hd, IH.
Qed.

(** A string without separator that is neither empty nor ["."] parses
    as the one-component relative path. *)
Lemma of_str_component s :
  Str.contains "/" s = false → s ≠ "" → s ≠ "." →
  pathlib.of_str s = mkPath "" [s].
Proof.
  intros Hsep Hne Hdot. unfold pathlib.of_str.
  rewrite (split_without _ _ Hsep). f_equal.
  - unfold pathlib.splitroot.
    destruct s as [|c s]; [done|]. cbn in Hsep |- *.
    apply orb_false_elim in Hsep as [Hc _]. by rewrite Hc.
  - cbn. unfold pathlib.keep_part.
    apply String.eqb_neq in Hne, Hdot. by rewrite Hne, Hdot.
Qed.

Lemma output_name_component p :
  Str.contains "/" (pathlib.name p) = false →
  pathlib.of_str (output_name p) = mkPath "" [output_name p].
Proof.
  intros Hsep.
  assert (Hmark : Str.contains "_" (output_name p) = true).
  { unfold output_name. rewrite !contains_app. cbn. by rewrite orb_true_r. }
  apply of_str_component.
  - unfold output_name, pathlib.stem, pathlib.suffix.
    rewrite !contains_app.
    destruct (pathlib.has_suffix _); cbn;
      rewrite ?contains_take, ?contains_drop, ?Hsep by done; done.
  - intros Heq. by rewrite Heq in Hmark.
  - intros Heq. by rewrite Heq in Hmark.
Qed.

(** The saved file sits in the output directory and its name is the
    stem, [_predicted] and the suffix of the input's name. *)
Lemma output_path_parts dir p :
  Str.contains "/" (pathlib.name p) = false →
  dir // output_name p = mkPath (root dir) (parts dir ++ [output_name p]).
Proof.
  intros Hsep. unfold pathlib.truediv.
  by rewrite (output_name_component _ Hsep).
Qed.

Lemma output_path_name dir p :
  Str.contains "/" (pathlib.name p) = false →
  pathlib.name (dir // output_name p) = output_name p.
Proof.
  intros Hsep. rewrite (output_path_parts _ _ Hsep).
  unfold pathlib.name; cbn. apply List.last_last.
Qed.

Example output_path_example :
  pathlib.str (pathlib.of_str "out/run1" // output_name (pathlib.of_str "shots/cabin.v2.jpg"))
  = "out/run1/cabin.v2_predicted.jpg".
Proof. reflexivity. Qed.

Example output_path_no_suffix :
  pathlib.str (pathlib.of_str "predictions" // output_name (pathlib.of_str "/data/.hidden"))
  = "predictions/.hidden_predicted".
Proof. reflexivity. Qed.

End PathFacts.

(** ** Properties of the script *)

Section Properties.

Context {World image model tta : Type}.
Context (lib : Externals World image model tta).

Abbreviation St := (State World image).
Abbreviation Pred := (Predictor model tta).

Implicit Types (st : St) (self : Pred) (p : Path).

Lemma print_run (l : line) st : print l st = (inr tt, printed st [l]).
Proof. reflexivity. Qed.

Lemma bind_ok {A B} (c : M World image A) (k : A → M World image B) st a st' :
  c st = (inr a, st') → bind c k st = k a st'.
Proof. intros Hc. unfold bind. by rewrite Hc. Qed.

Lemma bind_raise {A B} (c : M World image A) (k : A → M World image B) st e st' :
  c st = (inl e, st') → bind c k st = (inl e, st').
Proof. intros Hc. unfold bind. by rewrite Hc. Qed.

Lemma bind_print {B} (l : line) (k : unit → M World image B) st :
  bind (print l) k st = k tt (printed st [l]).
Proof. reflexivity. Qed.

Lemma printed_printed st ls1 ls2 :
  printed (printed st ls1) ls2 = printed st (ls1 ++ ls2).
Proof. unfold printed; cbn. by rewrite <- app_assoc. Qed.

(** C2: constructing the predictor on a model path that does not exist
    raises [FileNotFoundError]; the state is the one before the call,
    so nothing was printed and no library call (in particular neither
    [YOLO(...)] nor [TTAPredictor(...)]) was made. *)
Theorem init_missing_model
    (model_path : string) (conf iou : pyfloat) (device : option string)
    (use_tta : bool) st :
  Path_exists lib (world st) (pathlib.of_str model_path) = false →
  __init__ lib model_path conf iou device use_tta st =
    (inl (FileNotFoundError
            ("Model not found: " +:+ pathlib.str (pathlib.of_str model_path))),
     st).
Proof.
  intros Hmissing. unfold __init__, bind, ask; cbn. by rewrite Hmissing.
Qed.

(** C3: [predict_image] on a path that does not exist raises
    [FileNotFoundError]; the state is the one before the call, so
    neither [cv2.imread] nor inference was attempted. *)
Theorem predict_image_missing self p (save_output : bool)
    (output_dir : option Path) st :
  Path_exists lib (world st) p = false →
  predict_image lib self p save_output output_dir st =
    (inl (FileNotFoundError ("Image not found: " +:+ pathlib.str p)), st).
Proof.
  intros Hmissing. unfold predict_image, bind, ask; cbn. by rewrite Hmissing.
Qed.

(** C4: [predict_image] on a path that exists but that [cv2.imread]
    cannot decode raises [ValueError]; the only library call made is
    the [imread] itself, so inference was not run (and nothing was
    written or printed). *)
Theorem predict_image_unreadable self p (save_output : bool)
    (output_dir : option Path) st :
  Path_exists lib (world st) p = true →
  cv2_imread lib (world st) (pathlib.str p) = None →
  predict_image lib self p save_output output_dir st =
    (inl (ValueError ("Failed to read image: " +:+ pathlib.str p)),
     called st [call_imread (pathlib.str p)]).
Proof.
  intros Hfound Hread. unfold predict_image, bind, ask, call; cbn.
  by rewrite Hfound; cbn; rewrite Hread.
Qed.

(** C10: when [inference_tta] failed to import, constructing the
    predictor with [use_tta=True] is the same computation as with
    [use_tta=False] (same result or exception, same output, same
    calls).  When the model path exists and [YOLO(path)] and
    [model.to(device)] return, it returns the predictor of the plain
    path: [use_tta] is [False], no TTA predictor is held and the model
    is the one [YOLO] loaded; the calls made are these two and the lines
    printed are those of a plain load, none about the request.  When
    [YOLO(path)] raises, that exception is what is raised.  Any
    predictor returned has [use_tta = False] and was loaded by these
    two calls. *)
Theorem tta_request_downgraded
    (weights : string) (conf iou : pyfloat) (dev : option string) st :
  inference_tta lib = None →
  __init__ lib weights conf iou dev true st =
    __init__ lib weights conf iou dev false st
  ∧ (∀ mdl w1 w2,
       Path_exists lib (world st) (pathlib.of_str weights) = true →
       YOLO lib (pathlib.str (pathlib.of_str weights)) (world st) = (inr mdl, w1) →
       YOLO_to lib mdl (chosen_device lib (world st) dev) w1 = (inr tt, w2) →
       __init__ lib weights conf iou dev true st =
         (inr (mkPredictor (pathlib.of_str weights) conf iou false
                 (chosen_device lib (world st) dev) None mdl (YOLO_names lib mdl)),
          mkState w2
            (stdout st ++
             [[FStr "Loading model from: ";
               FStr (pathlib.str (pathlib.of_str weights))];
              [FStr "Using device: "; FStr (chosen_device lib (world st) dev)];
              [FStr "✅ Model loaded successfully!"];
              [FStr "📦 Classes: "; FValues (YOLO_names lib mdl)];
              []])
            (stderr st)
            (calls st ++
             [call_YOLO (pathlib.str (pathlib.of_str weights));
              call_model_to (chosen_device lib (world st) dev)])))
  ∧ (∀ e w1,
       Path_exists lib (world st) (pathlib.of_str weights) = true →
       YOLO lib (pathlib.str (pathlib.of_str weights)) (world st) = (inl e, w1) →
       __init__ lib weights conf iou dev true st =
         (inl e,
          mkState w1
            (stdout st ++
             [[FStr "Loading model from: ";
               FStr (pathlib.str (pathlib.of_str weights))];
              [FStr "Using device: "; FStr (chosen_device lib (world st) dev)]])
            (stderr st)
            (calls st ++ [call_YOLO (pathlib.str (pathlib.of_str weights))])))
  ∧ (∀ self st',
       __init__ lib weights conf iou dev true st = (inr self, st') →
       use_tta self = false
       ∧ predictor self = None
       ∧ calls st' =
           calls st ++ [call_YOLO (pathlib.str (pathlib.of_str weights));
                        call_model_to (device self)]).
Proof.
  intros Hnone.
  assert (Hav : TTA_AVAILABLE lib = false) by (unfold TTA_AVAILABLE; by rewrite Hnone).
  split; [unfold __init__; by rewrite Hav|].
  split; [|split].
  - intros mdl w1 w2 Hfound Hload Hto.
    unfold __init__, bind, ask, call, print, ret, raise; cbn.
    rewrite Hav, Hfound; cbn.
    destruct dev as [d|]; cbn in *; rewrite Hload; cbn; rewrite Hto; cbn;
      by rewrite <- !app_assoc.
  - intros e w1 Hfound Hload.
    unfold __init__, bind, ask, call, print, ret, raise; cbn.
    rewrite Hav, Hfound; cbn.
    destruct dev as [d|]; cbn in *; rewrite Hload; cbn;
      by rewrite <- !app_assoc.
  - intros self st'. unfold __init__, bind, ask, call, print, ret, raise; cbn.
    rewrite Hav; cbn.
    destruct (Path_exists lib (world st) _); cbn; [|done].
    destruct dev as [d|]; cbn;
      destruct (YOLO lib _ _) as [[e|mdl] w1]; cbn; try done;
      destruct (YOLO_to lib mdl _ w1) as [[e|[]] w2]; cbn; try done;
      intros [= <- <-]; cbn; by rewrite <- app_assoc.
Qed.

(** *** What a successful [predict_image] went through *)

Lemma run_inference_success self img st results st1 :
  run_inference lib self img st = (inr results, st1) →
  stdout st1 = stdout st ∧ stderr st1 = stderr st
  ∧ calls st1 = calls st ++ [inference_call self img].
Proof.
  unfold run_inference, inference_call, bind, call, ret, raise.
  destruct (use_tta self).
  - destruct (inference_tta lib) as [m|]; [|done].
    destruct (predictor self) as [t|]; [|done].
    destruct (tta_predict_single m t img true (world st)) as [r w].
    by intros [= -> <-].
  - destruct (YOLO_predict lib _ _ _ _ _ _) as [[e|rs] w]; [done|].
    destruct rs as [|r rs]; [done|]. by intros [= <- <-].
Qed.

Lemma predict_image_success self p (save_output : bool)
    (output_dir : option Path) st r st' :
  predict_image lib self p save_output output_dir st = (inr r, st') →
  predict_image_trace lib self p save_output output_dir st r st'.
Proof.
  unfold predict_image, bind, ask, call, lift, ret, raise, print; cbn.
  destruct (Path_exists lib (world st) p) eqn:Hfound; cbn; [|done].
  destruct (cv2_imread lib (world st) (pathlib.str p)) as [img|] eqn:Hread;
    cbn; [|done].
  destruct (run_inference lib self img _) as [[e|results] st1] eqn:Hinfer;
    [done|].
  destruct (_extract_predictions self results) as [e|preds] eqn:Hextract;
    [done|].
  destruct (run_inference_success _ _ _ _ _ Hinfer) as (Hout & Herr & Hcalls).
  destruct save_output.
  - fold (save_dir output_dir).
    destruct (Path_mkdir lib _ _) as [[e|[]] w2]; [done|].
    destruct (_draw_predictions lib img preds) as [e|annotated] eqn:Hdraw;
      [done|].
    cbn.
    destruct (cv2_imwrite lib _ _ _) as [[e|flag] w3]; [done|].
    intros [= <- <-].
    apply (trace_intro _ _ _ _ _ _ _ _ img results st1); cbn; try done.
    exists annotated. rewrite Hout, Hcalls. cbn.
    by rewrite <- !app_assoc.
  - intros [= <- <-].
    by apply (trace_intro _ _ _ _ _ _ _ _ img results st1).
Qed.


(** *** The shape of the detection records *)

Lemma extract_one_spec names b d :
  extract_one names b = inr d → detection_of names b d.
Proof.
  unfold extract_one, detection_of, rbind.
  destruct (py_int (cls b)) as [e|cid]; [done|].
  destruct (names !! cid) as [n|] eqn:Hname; [|done].
  by intros [= <-].
Qed.

Lemma extract_boxes_spec names boxes acc out :
  extract_boxes names boxes acc = inr out →
  ∃ new, out = acc ++ new ∧ Forall2 (detection_of names) boxes new.
Proof.
  revert acc. induction boxes as [|b boxes IH]; intros acc; cbn.
  - intros [= <-]. exists []. by rewrite app_nil_r.
  - unfold rbind at 1.
    destruct (extract_one names b) as [e|d] eqn:Hone; [done|].
    intros Hrest. destruct (IH _ Hrest) as (new & -> & Hnew).
    exists (d :: new). rewrite <- app_assoc. split; [done|].
    constructor; [by apply extract_one_spec | done].
Qed.

Lemma tolist_length t : length (tolist t) = 4%nat.
Proof. by destruct t as [[[x1 y1] x2] y2]. Qed.

Lemma extract_predictions_wf self results preds :
  _extract_predictions self results = inr preds →
  Forall (detection_wf (class_names self)) preds.
Proof.
  destruct results as [| |boxes]; cbn; [| done |].
  - by intros [= <-].
  - intros Hextract.
    destruct (extract_boxes_spec _ _ _ _ Hextract) as (new & -> & Hnew).
    cbn. clear Hextract. induction Hnew as [|b d boxes new Hd _ IH]; [done|].
    constructor; [|done].
    destruct Hd as (_ & Hname & _ & Hbox). split; [done|].
    rewrite Hbox. apply tolist_length.
Qed.

Lemma init_class_names (model_path : string) (conf iou : pyfloat)
    (dev : option string) (tta_flag : bool) st self st' :
  __init__ lib model_path conf iou dev tta_flag st = (inr self, st') →
  class_names self = YOLO_names lib (model_ self).
Proof.
  unfold __init__, bind, ask, call, print, ret, raise.
  intros Hinit. by repeat (case_match; simplify_eq/=).
Qed.

(** C9: a result returned by [predict_image], for a predictor built by
    [__init__], has [num_detections] equal to the length of
    [predictions], and each detection record has a class name that is
    the entry of [model.names] at its (integer) class id and a bounding
    box of exactly four (float) coordinates. *)
Theorem predict_image_result_invariant
    (model_path : string) (conf iou : pyfloat) (dev : option string)
    (tta_flag : bool) st0 self st p (save_output : bool)
    (output_dir : option Path) st1 r st' :
  __init__ lib model_path conf iou dev tta_flag st0 = (inr self, st) →
  predict_image lib self p save_output output_dir st1 = (inr r, st') →
  num_detections r = length (predictions r)
  ∧ Forall (detection_wf (YOLO_names lib (model_ self))) (predictions r).
Proof.
  intros Hinit Hrun.
  destruct (predict_image_success _ _ _ _ _ _ _ Hrun)
    as [img results st2 _ _ _ Hextract Hr _].
  split.
  - by rewrite Hr.
  - rewrite <- (init_class_names _ _ _ _ _ _ _ _ Hinit).
    by eapply extract_predictions_wf.
Qed.

(** *** Batch processing *)

Lemma find_images_none (source_dir : Path) (extensions : list string)
    (image_files : list Path) st :
  (∀ ext, ext ∈ extensions →
     Path_glob lib (world st) source_dir ("*" +:+ ext) = inr []
     ∧ Path_glob lib (world st) source_dir ("*" +:+ Str.upper ext) = inr []) →
  find_images lib source_dir extensions image_files st = (inr image_files, st).
Proof.
  revert image_files.
  induction extensions as [|ext rest IH]; intros image_files Hnone; [done|].
  destruct (Hnone ext) as [Hlower Hupper]; [by left|].
  simpl find_images. unfold bind at 1, ask_r at 1. rewrite Hlower.
  unfold bind at 1, ask_r at 1. rewrite Hupper.
  rewrite !app_nil_r. apply IH. intros e He. apply Hnone. by right.
Qed.

(** C5: on a directory that exists and in which none of the globs
    ["*" + ext] and ["*" + ext.upper()] finds anything, [predict_batch]
    returns the empty list; it raises nothing, makes no library call and
    prints the one warning line. *)
Theorem predict_batch_no_images self (source_dir : Path) (save_output : bool)
    (output_dir : option Path) (extensions : list string) st :
  Path_exists lib (world st) source_dir = true →
  (∀ ext, ext ∈ extensions →
     Path_glob lib (world st) source_dir ("*" +:+ ext) = inr []
     ∧ Path_glob lib (world st) source_dir ("*" +:+ Str.upper ext) = inr []) →
  predict_batch lib self source_dir save_output output_dir extensions st =
    (inr [],
     printed st [[FStr "⚠️  No images found in "; FStr (pathlib.str source_dir)]]).
Proof.
  intros Hfound Hnone. unfold predict_batch, bind at 1, ask; cbn.
  rewrite Hfound; cbn. unfold bind at 1.
  by rewrite (find_images_none _ _ _ _ Hnone).
Qed.

Lemma batch_run_length self save_output output_dir files st outcomes st' :
  batch_run lib self save_output output_dir files st outcomes st' →
  length outcomes = length files.
Proof. induction 1; cbn; by f_equal. Qed.

Lemma process_images_run self (image_files : list Path) (save_output : bool)
    (output_dir : option Path) (all_predictions : list Prediction) st :
  ∃ outcomes st',
    process_images lib self image_files save_output output_dir all_predictions st
      = (inr (all_predictions ++ successes outcomes), st')
    ∧ batch_run lib self save_output output_dir image_files st outcomes st'.
Proof.
  revert all_predictions st.
  induction image_files as [|p rest IH]; intros acc st.
  - exists [], st. cbn. rewrite app_nil_r. split; [done | constructor].
  - simpl process_images. unfold bind at 1. rewrite print_run.
    unfold bind at 1, try_except, bind at 1.
    destruct (predict_image lib self p save_output output_dir _)
      as [[e|pred] st1] eqn:Hrun.
    + unfold bind at 1. rewrite print_run. unfold ret at 1.
      unfold bind at 1. rewrite print_run, printed_printed.
      destruct (IH acc (printed st1 ([[FStr "  ❌ Error: "; FStr (str_exc e)]] ++ [[]])))
        as (os & st2 & Hrest & Hspec).
      exists (inl e :: os), st2. split; [done|].
      by eapply batch_step.
    + unfold bind at 1. rewrite print_run. unfold ret at 1.
      unfold bind at 1. rewrite print_run, printed_printed.
      destruct (IH (acc ++ [pred])
                  (printed st1 ([report (inr pred)] ++ [[]])))
        as (os & st2 & Hrest & Hspec).
      exists (inr pred :: os), st2. split.
      * rewrite <- app_assoc in Hrest. exact Hrest.
      * by eapply batch_step.
Qed.

(** C6: once the images of an existing directory are listed,
    [predict_batch] does not raise.  It processes every image in
    order; an image whose processing raised is reported on an [Error:]
    line and contributes nothing, the others contribute their result,
    and the list returned is the list of these results in processing
    order. *)
Theorem predict_batch_skips_failures self (source_dir : Path)
    (save_output : bool) (output_dir : option Path)
    (extensions : list string) st (image_files : list Path) :
  Path_exists lib (world st) source_dir = true →
  find_images lib source_dir extensions [] st = (inr image_files, st) →
  ∃ outcomes st',
    predict_batch lib self source_dir save_output output_dir extensions st
      = (inr (successes outcomes), st')
    ∧ batch_run lib self save_output output_dir image_files
        (printed st (batch_banner source_dir image_files)) outcomes st'
    ∧ length outcomes = length image_files.
Proof.
  intros Hfound Hfiles. unfold predict_batch, bind at 1, ask; cbn [negb].
  rewrite Hfound; cbn [negb].
  rewrite (bind_ok _ _ _ _ _ Hfiles).
  destruct image_files as [|p rest].
  - exists [], (printed st (batch_banner source_dir [])).
    split; [|split; [constructor | done]].
    by rewrite bind_print.
  - rewrite !bind_print, printed_printed.
    destruct (process_images_run self (p :: rest) save_output output_dir []
                (printed st (batch_banner source_dir (p :: rest))))
      as (outcomes & st' & Hrun & Hspec).
    exists outcomes, st'. split; [exact Hrun|]. split; [done|].
    by eapply batch_run_length.
Qed.

(** *** The summary and the exit code *)

Lemma py_truediv_exact (a b : nat) :
  b ≠ 0%nat →
  ∃ q, py_truediv a b = inr (Finite q)
       ∧ (q * inject_Z (Z.of_nat b) == inject_Z (Z.of_nat a))%Q.
Proof.
  intros Hb. exists (Qmake (Z.of_nat a) (Pos.of_nat b)).
  destruct b as [|b]; [done|]. split; [done|].
  unfold Qeq, Qmult, inject_Z; cbn.
  rewrite Pos.mul_1_r, Z.mul_1_r.
  f_equal. lia.
Qed.

Lemma print_summary_run (results : list Prediction) st :
  ∃ average,
    print_summary results st =
      (inr tt,
       printed st ([[FStr "Total images processed: ";
                     FInt (Z.of_nat (length results))];
                    total_line results] ++ average))
    ∧ match results with
      | [] => average = []
      | _ :: _ =>
          ∃ q, average = [[FStr "Average detections per image: ";
                           FFloat 2 (Finite q)]]
               ∧ (q * inject_Z (Z.of_nat (length results))
                  == inject_Z (Z.of_nat (sum_list (num_detections <$> results))))%Q
      end.
Proof.
  unfold print_summary. rewrite !bind_print, printed_printed.
  destruct results as [|r rs].
  - exists []. by rewrite app_nil_r.
  - destruct (py_truediv_exact (sum_list (num_detections <$> r :: rs))
                (length (r :: rs))) as (q & Hq & Hexact); [done|].
    exists [[FStr "Average detections per image: "; FFloat 2 (Finite q)]].
    split; [|by exists q].
    rewrite (bind_ok _ _ _ (Finite q) (printed st
               ([[FStr "Total images processed: ";
                  FInt (Z.of_nat (length (r :: rs)))]] ++ [total_line (r :: rs)])))
      by (unfold lift; by rewrite Hq).
    by rewrite print_run, printed_printed.
Qed.

Lemma main_batch_returns (predictor : Pred) (source : Path)
    (args : Args) (output_dir : option Path) st results st1 :
  predict_batch lib predictor source (negb (arg_no_save args)) output_dir
    default_extensions
    (printed st [[FStr "🔍 Running batch inference on: ";
                  FStr (pathlib.str source)]; []])
    = (inr results, st1) →
  ∃ ls, main_batch lib predictor source args output_dir st
        = (inr tt, printed st1 ls).
Proof.
  intros Hbatch.
  destruct (print_summary_run results
              (printed st1 [[]; [FStr (Str.repeat "=" 80)]; [FStr "📊 SUMMARY"];
                            [FStr (Str.repeat "=" 80)]]))
    as (average & Hsummary & _).
  eexists.
  unfold main_batch. rewrite !bind_print, printed_printed.
  rewrite (bind_ok _ _ _ results st1) by exact Hbatch.
  rewrite !bind_print, !printed_printed.
  etrans; [exact Hsummary|]. by rewrite printed_printed.
Qed.


Lemma print_detections_run (i : Z) (preds : list Detection) st :
  ∃ ls, print_detections i preds st = (inr tt, printed st ls).
Proof.
  revert i st. induction preds as [|d preds IH]; intros i st.
  - exists []. unfold printed. rewrite app_nil_r. by destruct st.
  - simpl print_detections. rewrite bind_print.
    destruct (IH (i + 1) (printed st [[FStr "  "; FInt i; FStr ". ";
                                        FStr (class_name d);
                                        FStr " (confidence: ";
                                        FFloat 3 (confidence d); FStr ")"]]))
      as (ls & Hrest).
    eexists. etrans; [exact Hrest|]. by rewrite printed_printed.
Qed.

(** The single-image branch raises exactly when [predict_image] does. *)
Lemma main_single_run (predictor : Pred) (source : Path) (args : Args)
    (output_dir : option Path) st :
  match predict_image lib predictor source (negb (arg_no_save args)) output_dir
          (printed st [[FStr "🔍 Running inference on: ";
                        FStr (pathlib.str source)]; []]) with
  | (inl e, st1) =>
      main_single lib predictor source args output_dir st = (inl e, st1)
  | (inr _, st1) =>
      ∃ ls, main_single lib predictor source args output_dir st
            = (inr tt, printed st1 ls)
  end.
Proof.
  unfold main_single. rewrite !bind_print, printed_printed. cbn [app].
  destruct (predict_image lib predictor source _ output_dir _)
    as [[e|r] st1] eqn:Hrun.
  - by rewrite (bind_raise _ _ _ e st1).
  - rewrite (bind_ok _ _ _ r st1) by done.
    rewrite !bind_print, !printed_printed.
    destruct (predictions r) as [|d ds].
    + eexists. rewrite print_run. by rewrite printed_printed.
    + rewrite bind_print, printed_printed.
      destruct (print_detections_run 1 (d :: ds)
                  (printed st1
                     ([[]] ++ [[FStr (Str.repeat "=" 80)]] ++ [[FStr "📊 RESULTS"]] ++
                      [[FStr (Str.repeat "=" 80)]] ++
                      [[FStr "Image: "; FStr (image_path r)]] ++
                      [[FStr "Detections: "; FInt (Z.of_nat (num_detections r))]] ++
                      [[]] ++ [[FStr "Detected objects:"]])))
        as (ls & Hls).
      eexists. etrans; [exact Hls|]. by rewrite printed_printed.
Qed.

(** The directory branch raises exactly when [predict_batch] does. *)
Lemma main_batch_run (predictor : Pred) (source : Path) (args : Args)
    (output_dir : option Path) st :
  match predict_batch lib predictor source (negb (arg_no_save args)) output_dir
          default_extensions
          (printed st [[FStr "🔍 Running batch inference on: ";
                        FStr (pathlib.str source)]; []]) with
  | (inl e, st1) =>
      main_batch lib predictor source args output_dir st = (inl e, st1)
  | (inr _, st1) =>
      ∃ ls, main_batch lib predictor source args output_dir st
            = (inr tt, printed st1 ls)
  end.
Proof.
  destruct (predict_batch lib predictor source _ output_dir _ _)
    as [[e|results] st1] eqn:Hrun.
  - unfold main_batch. rewrite !bind_print, printed_printed.
    by rewrite (bind_raise _ _ _ e st1).
  - destruct (main_batch_returns predictor source args output_dir
                st results st1 Hrun) as (ls & Hls).
    by exists ls.
Qed.

Lemma print_header_run st :
  print_header st =
    (inr tt,
     printed st [[FStr (Str.repeat "=" 80)];
                 [FStr "🛰️  Space Station Safety Object Detection - Inference"];
                 [FStr (Str.repeat "=" 80)]; []]).
Proof.
  unfold print_header. rewrite !bind_print, print_run.
  by rewrite !printed_printed.
Qed.

(** What the guarded inference returns, by case. *)
Lemma main_infer_run (predictor : Pred) (args : Args) st :
  let source := pathlib.of_str (arg_source args) in
  let output_dir :=
    if negb (arg_no_save args) then Some (pathlib.of_str (arg_output args))
    else None in
  ∃ code st', main_infer lib predictor args st = (inr code, st') ∧
    if Path_is_file lib (world st) source then
      match predict_image lib predictor source (negb (arg_no_save args))
              output_dir
              (printed st [[FStr "🔍 Running inference on: ";
                            FStr (pathlib.str source)]; []]) with
      | (inl _, _) => code = 1
      | (inr _, _) => code = 0
      end
    else if Path_is_dir lib (world st) source then
      match predict_batch lib predictor source (negb (arg_no_save args))
              output_dir default_extensions
              (printed st [[FStr "🔍 Running batch inference on: ";
                            FStr (pathlib.str source)]; []]) with
      | (inl _, _) => code = 1
      | (inr _, _) => code = 0
      end
    else code = 1.
Proof.
  intros source output_dir. unfold main_infer.
  fold source. fold output_dir. unfold try_except, bind at 1, ask.
  destruct (Path_is_file lib (world st) source).
  - pose proof (main_single_run predictor source args output_dir st) as Hrun.
    unfold bind at 1, bind at 1.
    destruct (predict_image lib predictor source _ output_dir _)
      as [[e|r] st1]; [rewrite Hrun | destruct Hrun as (ls & ->)].
    + rewrite bind_print. unfold bind, print_exc, ret. by eexists _, _.
    + unfold ret at 1. rewrite !bind_print.
      destruct (negb (arg_no_save args));
        rewrite ?bind_print; unfold bind, ret; by eexists _, _.
  - unfold bind at 1, bind at 1, ask.
    destruct (Path_is_dir lib (world st) source).
    + pose proof (main_batch_run predictor source args output_dir st) as Hrun.
      unfold bind at 1.
      destruct (predict_batch lib predictor source _ output_dir _ _)
        as [[e|r] st1]; [rewrite Hrun | destruct Hrun as (ls & ->)].
      * rewrite bind_print. unfold bind, print_exc, ret. by eexists _, _.
      * unfold ret at 1. rewrite !bind_print.
        destruct (negb (arg_no_save args));
          rewrite ?bind_print; unfold bind, ret; by eexists _, _.
    + rewrite bind_print. unfold ret. by eexists _, _.
Qed.

(** C1: [main] always returns, and what it returns is 0 or 1.  It is 1
    when constructing the predictor raised, when the source is neither
    a file nor a directory, when [predict_image] raised on a file
    source, and when [predict_batch] raised on a directory source; it
    is 0 when [predict_image] or [predict_batch] returned. *)
Theorem main_exit_code (args : Args) st :
  let source := pathlib.of_str (arg_source args) in
  let output_dir :=
    if negb (arg_no_save args) then Some (pathlib.of_str (arg_output args))
    else None in
  ∃ code st', main lib args st = (inr code, st') ∧ (code = 0 ∨ code = 1) ∧
    match __init__ lib (arg_model args) (arg_conf args) (arg_iou args)
            (arg_device args) (arg_tta args) (exec print_header st) with
    | (inl _, _) => code = 1
    | (inr predictor, st1) =>
        if Path_is_file lib (world st1) source then
          match predict_image lib predictor source (negb (arg_no_save args))
                  output_dir
                  (printed st1 [[FStr "🔍 Running inference on: ";
                                 FStr (pathlib.str source)]; []]) with
          | (inl _, _) => code = 1
          | (inr _, _) => code = 0
          end
        else if Path_is_dir lib (world st1) source then
          match predict_batch lib predictor source (negb (arg_no_save args))
                  output_dir default_extensions
                  (printed st1 [[FStr "🔍 Running batch inference on: ";
                                 FStr (pathlib.str source)]; []]) with
          | (inl _, _) => code = 1
          | (inr _, _) => code = 0
          end
        else code = 1
    end.
Proof.
  intros source output_dir. unfold main, exec.
  rewrite (bind_ok _ _ _ tt _ (print_header_run st)).
  rewrite print_header_run. cbn [snd].
  unfold bind at 1, main_load, try_except, bind at 1.
  destruct (__init__ lib _ _ _ _ _ _) as [[e|predictor] st1].
  - rewrite bind_print. unfold ret. eexists _, _. by eauto.
  - unfold ret at 1.
    destruct (main_infer_run predictor args st1) as (code & st' & Hrun & Hcode).
    exists code, st'. split; [done|]. split; [|done].
    clear Hrun. repeat case_match; subst; eauto.
Qed.

End Properties.

(** ** Further properties of the script *)

Section Behaviour.

Context {World image model tta : Type}.
Context (lib : Externals World image model tta).

Abbreviation St := (State World image).
Abbreviation Pred := (Predictor model tta).

Implicit Types (st : St) (self : Pred) (p : Path).

(** *** [_extract_predictions] *)

Lemma extract_one_known names b :
  (∃ d, extract_one names b = inr d) ↔ known_class names b.
Proof.
  unfold extract_one, known_class, rbind. split.
  - intros [d Hd]. destruct (py_int (cls b)) as [e|k]; [done|].
    exists k. split; [done|]. by destruct (names !! k).
  - intros (k & -> & [n ->]). by eexists.
Qed.

Lemma extract_boxes_app names pre post acc mid :
  extract_boxes names pre acc = inr mid →
  extract_boxes names (pre ++ post) acc = extract_boxes names post mid.
Proof.
  revert acc. induction pre as [|b pre IH]; intros acc; cbn.
  - by intros [= ->].
  - unfold rbind. destruct (extract_one names b) as [e|d]; [done|].
    apply IH.
Qed.

Lemma extract_boxes_known names boxes acc :
  Forall (known_class names) boxes →
  ∃ out, extract_boxes names boxes acc = inr out.
Proof.
  intros Hboxes. revert acc.
  induction Hboxes as [|b boxes Hb _ IH]; intros acc; cbn; [by eexists|].
  apply extract_one_known in Hb as [d ->]. apply IH.
Qed.

Lemma extract_boxes_all_known names boxes acc out :
  extract_boxes names boxes acc = inr out → Forall (known_class names) boxes.
Proof.
  revert acc. induction boxes as [|b boxes IH]; intros acc; cbn; [done|].
  unfold rbind at 1.
  destruct (extract_one names b) as [e|d] eqn:Hone; [done|].
  intros Hrest. constructor; [|by eapply IH].
  apply extract_one_known. by exists d.
Qed.

(** When [_extract_predictions] returns, its list has one record per
    row of boxes, in the order of the rows: the record's class id is
    [int] of the row's class, its name the entry of the names at that
    id, its confidence and box those of the row.  A result without a
    [boxes] attribute gives the empty list; one whose [boxes] is [None]
    never returns. *)
Theorem extract_predictions_rows self results preds :
  _extract_predictions self results = inr preds →
  match results with
  | NoBoxesAttr => preds = []
  | BoxesNone => False
  | WithBoxes boxes => Forall2 (detection_of (class_names self)) boxes preds
  end.
Proof.
  destruct results as [| |boxes]; cbn; [| done |].
  - by intros [= <-].
  - intros Hextract.
    by destruct (extract_boxes_spec _ _ _ _ Hextract) as (new & -> & Hnew).
Qed.

(** [_extract_predictions] returns exactly in these cases: the result
    has no [boxes] attribute, or it has boxes and every row's class is a
    finite number whose integer part is a key of [self.class_names].
    With a [boxes] attribute that is [None] it raises. *)
Theorem extract_predictions_defined self results :
  (∃ preds, _extract_predictions self results = inr preds)
  ↔ match results with
    | NoBoxesAttr => True
    | BoxesNone => False
    | WithBoxes boxes => Forall (known_class (class_names self)) boxes
    end.
Proof.
  destruct results as [| |boxes]; cbn.
  - split; [done | by eexists].
  - split; [by intros [preds ?] | done].
  - split.
    + intros [preds Hextract]. by eapply extract_boxes_all_known.
    + apply extract_boxes_known.
Qed.

(** The first row whose class id is not a key of [self.class_names]
    makes [_extract_predictions] raise [KeyError] with that id; the
    records of the rows before it are lost with it. *)
Theorem extract_predictions_unknown_class self pre b post k :
  Forall (known_class (class_names self)) pre →
  py_int (cls b) = inr k →
  class_names self !! k = None →
  _extract_predictions self (WithBoxes (pre ++ b :: post)) = inl (KeyError k).
Proof.
  intros Hpre Hint Hmissing. cbn.
  destruct (extract_boxes_known _ _ [] Hpre) as [mid Hmid].
  rewrite (extract_boxes_app _ _ _ _ _ Hmid). cbn.
  unfold rbind, extract_one, rbind. by rewrite Hint, Hmissing.
Qed.

(** *** [_draw_predictions] *)

Lemma color_in_range (class_id : Z) :
  ∃ color, colors !! Z.to_nat (class_id `mod` Z.of_nat (length colors)) = Some color.
Proof.
  apply lookup_lt_is_Some. cbn.
  pose proof (Z.mod_pos_bound class_id 7). lia.
Qed.

Lemma map_int_outcome (l : list pyfloat) :
  match map_int l with
  | inr ns => Forall (λ x, is_finite x = true) l ∧ length ns = length l
  | inl e => ∃ x, x ∈ l ∧ py_int x = inl e
  end.
Proof.
  induction l as [|x l IH]; cbn; [done|].
  destruct (py_int x) as [e|n] eqn:Hx; cbn.
  - exists x. split; [by left | done].
  - destruct (map_int l) as [e|ns]; cbn.
    + destruct IH as (y & Hy & Hint). exists y. split; [by right | done].
    + destruct IH as [Hfinite Hlen]. split; [|by rewrite Hlen].
      constructor; [|done]. by destruct x.
Qed.

Lemma draw_one_outcome (img : image) (d : Detection) :
  length (bbox d) = 4%nat →
  match draw_one lib img d with
  | inr _ => Forall (λ x, is_finite x = true) (bbox d)
  | inl e =>
      (∃ x, x ∈ bbox d ∧ py_int x = inl e)
      ∨ (∃ i a b c t, cv2_rectangle lib i a b c t = inl e)
      ∨ (∃ i l o c, cv2_putText lib i l o c = inl e)
  end.
Proof.
  intros Hlen.
  destruct (bbox d) as [|x1 [|y1 [|x2 [|y2 [|? ?]]]]] eqn:Hbox; try done.
  unfold draw_one, unpack4_int. rewrite Hbox.
  change (take 5 [x1; y1; x2; y2]) with [x1; y1; x2; y2].
  pose proof (map_int_outcome [x1; y1; x2; y2]) as Hints.
  destruct (map_int [x1; y1; x2; y2]) as [e|ns]; cbn; [by left|].
  destruct Hints as [Hfinite Hns].
  destruct ns as [|n1 [|n2 [|n3 [|n4 [|? ?]]]]]; try done. cbn.
  destruct (color_in_range (class_id d)) as [color Hcolor].
  cbn in Hcolor. rewrite Hcolor. cbn.
  destruct (cv2_rectangle lib img (n1, n2) (n3, n4) color 2) as [e|i1] eqn:Hr1;
    cbn; [right; left; by eexists _, _, _, _, _|].
  destruct (cv2_getTextSize lib _) as [label_w label_h].
  destruct (cv2_rectangle lib i1 _ _ color (-1)) as [e|i2] eqn:Hr2;
    cbn; [right; left; by eexists _, _, _, _, _|].
  destruct (cv2_putText lib i2 _ _ _) as [e|i3] eqn:Ht;
    [right; right; by eexists _, _, _, _ | done].
Qed.

Lemma draw_outcome (img : image) (preds : list Detection) :
  Forall (λ d, length (bbox d) = 4%nat) preds →
  match _draw_predictions lib img preds with
  | inr _ => Forall (λ d, Forall (λ x, is_finite x = true) (bbox d)) preds
  | inl e =>
      (∃ d x, d ∈ preds ∧ x ∈ bbox d ∧ py_int x = inl e)
      ∨ (∃ i a b c t, cv2_rectangle lib i a b c t = inl e)
      ∨ (∃ i l o c, cv2_putText lib i l o c = inl e)
  end.
Proof.
  intros Hlen. revert img.
  induction Hlen as [|d preds Hd _ IH]; intros img; cbn; [done|].
  pose proof (draw_one_outcome img d Hd) as Hone.
  destruct (draw_one lib img d) as [e|img1]; cbn.
  - destruct Hone as [(x & Hx & Hint)|[Hrect|Htext]]; [left|by right; left|by right; right].
    exists d, x. split; [by left | done].
  - specialize (IH img1).
    destruct (_draw_predictions lib img1 preds) as [e|img2].
    + destruct IH as [(d' & x & Hd' & Hx & Hint)|[Hrect|Htext]];
        [left|by right; left|by right; right].
      exists d', x. split; [by right | done].
    + by constructor.
Qed.

(** Drawing on detections whose boxes have four coordinates, as
    [_extract_predictions] builds them: [_draw_predictions] returns only
    if every coordinate is a finite number, and an exception it raises
    is the one [int] raised on a coordinate of some detection or one
    that [cv2.rectangle] or [cv2.putText] raised.  The unpacking and the
    colour lookup [colors[class_id % len(colors)]] raise nothing, for
    negative class ids and ids beyond the palette alike. *)
Theorem draw_predictions_outcome (img : image) (preds : list Detection) :
  Forall (λ d, length (bbox d) = 4%nat) preds →
  match _draw_predictions lib img preds with
  | inr _ => Forall (λ d, Forall (λ x, is_finite x = true) (bbox d)) preds
  | inl e =>
      (∃ d x, d ∈ preds ∧ x ∈ bbox d ∧ py_int x = inl e)
      ∨ (∃ i a b c t, cv2_rectangle lib i a b c t = inl e)
      ∨ (∃ i l o c, cv2_putText lib i l o c = inl e)
  end.
Proof. apply draw_outcome. Qed.

(** *** What a computation leaves untouched *)

Lemma writes_app (cs1 cs2 : list (Call image)) :
  writes (cs1 ++ cs2) = writes cs1 ++ writes cs2.
Proof. apply List.filter_app. Qed.

Lemma nw_ret {A} (a : A) : no_writes (ret (World:=World) (image:=image) a).
Proof. by intros st r st' [= _ <-]. Qed.

Lemma nw_raise {A} (e : Exception) :
  no_writes (raise (World:=World) (image:=image) (A:=A) e).
Proof. by intros st r st' [= _ <-]. Qed.

Lemma nw_lift {A} (x : Result A) : no_writes (lift (World:=World) (image:=image) x).
Proof. by intros st r st' [= _ <-]. Qed.

Lemma nw_ask {A} (f : World → A) : no_writes (ask (image:=image) f).
Proof. by intros st r st' [= _ <-]. Qed.

Lemma nw_ask_r {A} (f : World → Result A) : no_writes (ask_r (image:=image) f).
Proof. by intros st r st' [= _ <-]. Qed.

Lemma nw_print (l : line) : no_writes (print (World:=World) (image:=image) l).
Proof. by intros st r st' [= _ <-]. Qed.

Lemma nw_print_exc (e : Exception) :
  no_writes (print_exc (World:=World) (image:=image) e).
Proof. by intros st r st' [= _ <-]. Qed.

Lemma nw_call {A} (c : Call image) (f : World → Result A * World) :
  is_write c = false → no_writes (call c f).
Proof.
  intros Hc st r st'. unfold call. destruct (f (world st)) as [r0 w].
  intros [= _ <-]. unfold writes. cbn [calls].
  rewrite List.filter_app. cbn. rewrite Hc. apply app_nil_r.
Qed.

Lemma nw_bind {A B} (c : M World image A) (k : A → M World image B) :
  no_writes c → (∀ a, no_writes (k a)) → no_writes (bind c k).
Proof.
  intros Hc Hk st r st'. unfold bind.
  destruct (c st) as [[e|a] st1] eqn:Hrun.
  - intros [= _ <-]. by eapply Hc.
  - intros Hrest. rewrite (Hk a _ _ _ Hrest). by eapply Hc.
Qed.

Lemma nw_try {A} (c : M World image A) (h : Exception → M World image A) :
  no_writes c → (∀ e, no_writes (h e)) → no_writes (try_except c h).
Proof.
  intros Hc Hh st r st'. unfold try_except.
  destruct (c st) as [[e|a] st1] eqn:Hrun.
  - intros Hrest. rewrite (Hh e _ _ _ Hrest). by eapply Hc.
  - intros [= _ <-]. by eapply Hc.
Qed.

Ltac nw_step :=
  first [ apply nw_ret | apply nw_raise | apply nw_lift | apply nw_ask
        | apply nw_ask_r | apply nw_print | apply nw_print_exc
        | apply nw_call; reflexivity
        | apply nw_bind; [|intros ?]
        | apply nw_try; [|intros ?] ].

Ltac nw_with known := repeat first [ known | nw_step | case_match ].

Ltac nw := nw_with fail.

Lemma nw_init (model_path : string) (conf iou : pyfloat) (dev : option string)
    (tta_flag : bool) :
  no_writes (__init__ lib model_path conf iou dev tta_flag).
Proof. unfold __init__. nw. Qed.

Lemma nw_run_inference self (img : image) : no_writes (run_inference lib self img).
Proof. unfold run_inference. nw. Qed.

Lemma nw_predict_image self p (output_dir : option Path) :
  no_writes (predict_image lib self p false output_dir).
Proof. unfold predict_image. nw_with ltac:(apply nw_run_inference). Qed.

Lemma nw_find_images (source_dir : Path) (extensions : list string)
    (image_files : list Path) :
  no_writes (find_images lib source_dir extensions image_files).
Proof.
  revert image_files.
  induction extensions as [|ext rest IH]; intros image_files; simpl find_images.
  - nw.
  - nw_with ltac:(apply IH).
Qed.

Lemma nw_process_images self (image_files : list Path) (output_dir : option Path)
    (all_predictions : list Prediction) :
  no_writes (process_images lib self image_files false output_dir all_predictions).
Proof.
  revert all_predictions.
  induction image_files as [|img_path rest IH]; intros acc; simpl process_images.
  - nw.
  - nw_with ltac:(first [apply nw_predict_image | apply IH]).
Qed.

Lemma nw_predict_batch self (source_dir : Path) (output_dir : option Path)
    (extensions : list string) :
  no_writes (predict_batch lib self source_dir false output_dir extensions).
Proof.
  unfold predict_batch.
  nw_with ltac:(first [apply nw_find_images | apply nw_process_images]).
Qed.

Lemma nw_print_detections (i : Z) (preds : list Detection) :
  no_writes (print_detections (World:=World) (image:=image) i preds).
Proof.
  revert i. induction preds as [|d preds IH]; intros i; simpl print_detections.
  - nw.
  - nw_with ltac:(apply IH).
Qed.

Lemma nw_main (args : Args) :
  arg_no_save args = true → no_writes (main lib args).
Proof.
  intros Hflag.
  unfold main, print_header, main_load, main_infer, main_single, main_batch,
    print_summary.
  rewrite Hflag. cbn [negb].
  nw_with ltac:(first [ apply nw_init | apply nw_predict_image
                      | apply nw_predict_batch | apply nw_print_detections ]).
Qed.

(** *** [predict_image] and [predict_batch]: saving and failing *)

Lemma run_inference_output self (img : image) st r st1 :
  run_inference lib self img st = (r, st1) →
  stdout st1 = stdout st ∧ stderr st1 = stderr st.
Proof.
  unfold run_inference, bind, call, ret, raise.
  intros Hrun. by repeat (case_match; simplify_eq/=).
Qed.

(** When [predict_image] raises, it has printed nothing: no [Saved:]
    line is ever reported for an image that failed, and nothing went to
    stderr. *)
Theorem predict_image_raises_silently self p (save_output : bool)
    (output_dir : option Path) st e st' :
  predict_image lib self p save_output output_dir st = (inl e, st') →
  stdout st' = stdout st ∧ stderr st' = stderr st.
Proof.
  unfold predict_image, bind, ask, call, lift, ret, raise, print. cbn.
  destruct (Path_exists lib (world st) p); cbn; [|by intros [= _ <-]].
  destruct (cv2_imread lib (world st) (pathlib.str p)) as [img|]; cbn;
    [|by intros [= _ <-]].
  destruct (run_inference lib self img _) as [r1 st1] eqn:Hinfer.
  apply run_inference_output in Hinfer as [Hout Herr]. cbn in Hout, Herr.
  intros Hrun. by repeat (case_match; simplify_eq/=).
Qed.

(** Without [save_output], [predict_image] issues neither [mkdir] nor
    [cv2.imwrite] and prints nothing, whether it returns or raises. *)
Theorem predict_image_without_saving self p (output_dir : option Path) st r st' :
  predict_image lib self p false output_dir st = (r, st') →
  writes (calls st') = writes (calls st) ∧ stdout st' = stdout st.
Proof.
  intros Hrun. split; [by eapply nw_predict_image|].
  revert Hrun.
  unfold predict_image, bind, ask, call, lift, ret, raise. cbn.
  destruct (Path_exists lib (world st) p); cbn; [|by intros [= _ <-]].
  destruct (cv2_imread lib (world st) (pathlib.str p)) as [img|]; cbn;
    [|by intros [= _ <-]].
  destruct (run_inference lib self img _) as [r1 st1] eqn:Hinfer.
  apply run_inference_output in Hinfer as [Hout Herr]. cbn in Hout, Herr.
  intros Hrun. by repeat (case_match; simplify_eq/=).
Qed.

(** Saving does not change what is returned: when [predict_image]
    returns a result with [save_output], it returns the same result
    from the same state without it, after the [imread] and the inference
    call only. *)
Theorem predict_image_result_without_saving self p (output_dir : option Path)
    st r st' :
  predict_image lib self p true output_dir st = (inr r, st') →
  ∃ img st'',
    predict_image lib self p false output_dir st = (inr r, st'')
    ∧ calls st'' =
        calls st ++ [call_imread (pathlib.str p); inference_call self img].
Proof.
  intros Hrun.
  destruct (predict_image_success _ _ _ _ _ _ _ _ Hrun)
    as [img results st1 Hfound Hread Hinfer Hextract Hr _].
  exists img, st1. split.
  - unfold predict_image, bind, ask, call, lift, ret. cbn.
    rewrite Hfound. cbn. rewrite Hread. cbn.
    unfold called in Hinfer. rewrite Hinfer, Hextract. by rewrite <- Hr.
  - destruct (run_inference_success _ _ _ _ _ _ Hinfer) as (_ & _ & Hcalls).
    rewrite Hcalls. cbn. by rewrite <- app_assoc.
Qed.

(** [predict_batch] on a directory that does not exist raises
    [FileNotFoundError] before listing anything: the state is the one
    before the call. *)
Theorem predict_batch_missing_directory self (source_dir : Path)
    (save_output : bool) (output_dir : option Path) (extensions : list string) st :
  Path_exists lib (world st) source_dir = false →
  predict_batch lib self source_dir save_output output_dir extensions st =
    (inl (FileNotFoundError
            ("Directory not found: " +:+ pathlib.str source_dir)), st).
Proof.
  intros Hmissing. unfold predict_batch, bind, ask; cbn. by rewrite Hmissing.
Qed.

(** Without [save_output], [predict_batch] issues neither [mkdir] nor
    [cv2.imwrite] for any image, whether the images succeed or fail and
    whether the listing raises or not. *)
Theorem predict_batch_without_saving self (source_dir : Path)
    (output_dir : option Path) (extensions : list string) st r st' :
  predict_batch lib self source_dir false output_dir extensions st = (r, st') →
  writes (calls st') = writes (calls st).
Proof. apply nw_predict_batch. Qed.

(** With [--no-save], [main] issues neither [mkdir] nor [cv2.imwrite]
    on any path through it: loading, single image, directory, and every
    failure. *)
Theorem main_no_save_writes_nothing (args : Args) st r st' :
  arg_no_save args = true →
  main lib args st = (r, st') →
  writes (calls st') = writes (calls st).
Proof. intros Hflag. by apply nw_main. Qed.

(** With [save_output], a [mkdir] that raises makes [predict_image]
    raise that exception although inference and extraction succeeded:
    the detections the call without saving returns are lost, and nothing
    is drawn or written. *)
Theorem predict_image_mkdir_failure self p (output_dir : option Path)
    st r st1 e w :
  predict_image lib self p false output_dir st = (inr r, st1) →
  Path_mkdir lib (save_dir output_dir) (world st1) = (inl e, w) →
  predict_image lib self p true output_dir st =
    (inl e,
     mkState w (stdout st1) (stderr st1)
       (calls st1 ++ [call_mkdir (save_dir output_dir)])).
Proof.
  unfold predict_image, bind, ask, call, lift, ret, raise. cbn.
  destruct (Path_exists lib (world st) p); cbn; [|done].
  destruct (cv2_imread lib (world st) (pathlib.str p)) as [img|]; cbn; [|done].
  destruct (run_inference lib self img _) as [[e1|results] st2]; [done|].
  destruct (_extract_predictions self results) as [e1|preds]; [done|].
  intros [= _ ->]. fold (save_dir output_dir). by intros ->.
Qed.

(** *** The list [predict_batch] works through and returns *)

(** For extensions of ASCII characters, such as the default ones, the
    images are listed extension by extension, for each the matches of
    the pattern as given and then those of its upper-case form; listing
    changes nothing in the state.  A file that two patterns match is
    listed, and so processed, twice. *)
Theorem find_images_order (source_dir : Path) (extensions : list string)
    (lower upper : string → list Path) (image_files : list Path) st :
  Forall (λ ext, is_ascii ext = true) extensions →
  (∀ ext, ext ∈ extensions →
     Path_glob lib (world st) source_dir ("*" +:+ ext) = inr (lower ext)
     ∧ Path_glob lib (world st) source_dir ("*" +:+ Str.upper ext)
       = inr (upper ext)) →
  find_images lib source_dir extensions image_files st =
    (inr (image_files ++ concat ((λ ext, lower ext ++ upper ext) <$> extensions)),
     st).
Proof.
  intros _. revert image_files.
  induction extensions as [|ext rest IH]; intros image_files Hglob.
  - cbn. by rewrite app_nil_r.
  - destruct (Hglob ext) as [Hlower Hupper]; [by left|].
    simpl find_images. unfold bind at 1, ask_r at 1. rewrite Hlower.
    unfold bind at 1, ask_r at 1. rewrite Hupper.
    rewrite IH by (intros e He; apply Hglob; by right).
    cbn. by rewrite <- !app_assoc.
Qed.

Lemma predict_image_wf self p (save_output : bool) (output_dir : option Path)
    st r st' :
  predict_image lib self p save_output output_dir st = (inr r, st') →
  prediction_wf (class_names self) r ∧ image_path r = pathlib.str p.
Proof.
  intros Hrun.
  destruct (predict_image_success _ _ _ _ _ _ _ _ Hrun)
    as [img results st1 _ _ _ Hextract Hr _].
  split; [split|].
  - by rewrite Hr.
  - by eapply extract_predictions_wf.
  - by rewrite Hr.
Qed.

Lemma batch_run_successes self (save_output : bool) (output_dir : option Path)
    files st outcomes st' :
  batch_run lib self save_output output_dir files st outcomes st' →
  Forall (prediction_wf (class_names self)) (successes outcomes)
  ∧ sublist (image_path <$> successes outcomes) (pathlib.str <$> files).
Proof.
  induction 1 as [|p rest st o st1 os st2 Hrun _ [IHwf IHsub]]; [done|].
  destruct o as [e|r]; cbn.
  - split; [done|]. by apply sublist_cons.
  - destruct (predict_image_wf _ _ _ _ _ _ _ Hrun) as [Hwf Hpath].
    split; [by constructor|]. rewrite Hpath. by apply sublist_skip.
Qed.

Lemma predict_batch_outcomes self (source_dir : Path) (save_output : bool)
    (output_dir : option Path) (extensions : list string) st rs st' :
  predict_batch lib self source_dir save_output output_dir extensions st
    = (inr rs, st') →
  ∃ files outcomes st1,
    find_images lib source_dir extensions [] st = (inr files, st)
    ∧ batch_run lib self save_output output_dir files st1 outcomes st'
    ∧ rs = successes outcomes.
Proof.
  unfold predict_batch, bind at 1, ask; cbn [negb].
  destruct (Path_exists lib (world st) source_dir); cbn [negb]; [|done].
  unfold bind at 1.
  destruct (find_images lib source_dir extensions [] st) as [[e|files] st0]
    eqn:Hfiles; [done|].
  assert (st0 = st) as ->.
  { clear -Hfiles. revert Hfiles. generalize (@nil Path).
    induction extensions as [|ext rest IH]; intros acc; simpl find_images.
    - by intros [= _ <-].
    - unfold bind, ask_r.
      destruct (Path_glob lib (world st) source_dir _); [by intros [= _ <-]|].
      destruct (Path_glob lib (world st) source_dir _); [by intros [= _ <-]|].
      apply IH. }
  destruct files as [|p rest].
  - rewrite bind_print. intros [= <- <-].
    exists [], [], (printed st (batch_banner source_dir [])).
    split; [done|]. split; [constructor | done].
  - rewrite !bind_print, printed_printed. intros Hloop.
    destruct (process_images_run lib self (p :: rest) save_output output_dir []
                (printed st (batch_banner source_dir (p :: rest))))
      as (outcomes & st2 & Hrun & Hspec).
    assert (Heq : (inr ([] ++ successes outcomes) : Result (list Prediction), st2)
                  = (inr rs, st')) by (etrans; [symmetry; exact Hrun | exact Hloop]).
    injection Heq as <- <-.
    by exists (p :: rest), outcomes, (printed st (batch_banner source_dir (p :: rest))).
Qed.

(** Every result in the list [predict_batch] returns satisfies the
    data-model invariant, so the total the summary adds up is the number
    of detection records in the list. *)
Theorem predict_batch_results_wf self (source_dir : Path) (save_output : bool)
    (output_dir : option Path) (extensions : list string) st rs st' :
  predict_batch lib self source_dir save_output output_dir extensions st
    = (inr rs, st') →
  Forall (prediction_wf (class_names self)) rs
  ∧ sum_list (num_detections <$> rs) = length (concat (predictions <$> rs)).
Proof.
  intros Hrun.
  destruct (predict_batch_outcomes _ _ _ _ _ _ _ _ Hrun)
    as (files & outcomes & st1 & _ & Hspec & ->).
  destruct (batch_run_successes _ _ _ _ _ _ _ Hspec) as [Hwf _].
  split; [done|]. clear -Hwf.
  induction Hwf as [|r rs [Hr _] _ IH]; [done|].
  cbn. by rewrite length_app, IH, Hr.
Qed.

(** The results [predict_batch] returns follow the order of the listing:
    their [image_path] fields are a subsequence of the listed paths, so
    there are at most as many results as listed images. *)
Theorem predict_batch_results_in_order self (source_dir : Path)
    (save_output : bool) (output_dir : option Path) (extensions : list string)
    st (image_files : list Path) rs st' :
  find_images lib source_dir extensions [] st = (inr image_files, st) →
  predict_batch lib self source_dir save_output output_dir extensions st
    = (inr rs, st') →
  sublist (image_path <$> rs) (pathlib.str <$> image_files)
  ∧ (length rs ≤ length image_files)%nat.
Proof.
  intros Hfiles Hrun.
  destruct (predict_batch_outcomes _ _ _ _ _ _ _ _ Hrun)
    as (files & outcomes & st1 & Hfiles' & Hspec & ->).
  rewrite Hfiles in Hfiles'. injection Hfiles' as <-.
  destruct (batch_run_successes _ _ _ _ _ _ _ Hspec) as [_ Hsub].
  split; [done|].
  apply sublist_length in Hsub. by rewrite !length_fmap in Hsub.
Qed.

(** *** The predictor [__init__] builds *)

(** A predictor [__init__] returns holds the parsed model path and the
    thresholds it was given, the device requested or, when none was,
    ["cuda"] or ["cpu"] by [torch.cuda.is_available()], and the names of
    the model it loaded. *)
Theorem init_stores_arguments (weights : string) (conf iou : pyfloat)
    (dev : option string) (tta_flag : bool) st self st' :
  __init__ lib weights conf iou dev tta_flag st = (inr self, st') →
  model_path self = pathlib.of_str weights
  ∧ conf_threshold self = conf
  ∧ iou_threshold self = iou
  ∧ device self = chosen_device lib (world st) dev
  ∧ class_names self = YOLO_names lib (model_ self).
Proof.
  unfold __init__, bind, ask, call, print, ret, raise, chosen_device.
  intros Hinit. by repeat (case_match; simplify_eq/=).
Qed.

Lemma init_tta (model_path : string) (conf iou : pyfloat)
    (dev : option string) (tta_flag : bool) st self st' :
  __init__ lib model_path conf iou dev tta_flag st = (inr self, st') →
  use_tta self = tta_flag && TTA_AVAILABLE lib
  ∧ if use_tta self then
      ∃ m t, inference_tta lib = Some m ∧ predictor self = Some t
             ∧ model_ self = tta_model m t
    else predictor self = None.
Proof.
  unfold __init__, bind, ask, call, print, ret, raise.
  intros Hinit.
  repeat (case_match; simplify_eq/=); try done;
    split; try done; by eexists _, _.
Qed.

(** A predictor [__init__] returns has [use_tta] set exactly when TTA
    was requested and the module imported; it then holds a TTA predictor
    and that predictor's model, and holds none otherwise. *)
Theorem init_tta_consistent (model_path : string) (conf iou : pyfloat)
    (dev : option string) (tta_flag : bool) st self st' :
  __init__ lib model_path conf iou dev tta_flag st = (inr self, st') →
  use_tta self = tta_flag && TTA_AVAILABLE lib
  ∧ if use_tta self then
      ∃ m t, inference_tta lib = Some m ∧ predictor self = Some t
             ∧ model_ self = tta_model m t
    else predictor self = None.
Proof. apply init_tta. Qed.

(** With a predictor [__init__] returned, inference always goes through
    exactly one library call, [predict_single] with TTA and
    [model.predict] without, whatever that call does: the attribute
    [self.predictor] is never missing when it is used. *)
Theorem inference_after_init (model_path : string) (conf iou : pyfloat)
    (dev : option string) (tta_flag : bool) st0 self st (img : image) st1 r st2 :
  __init__ lib model_path conf iou dev tta_flag st0 = (inr self, st) →
  run_inference lib self img st1 = (r, st2) →
  calls st2 = calls st1 ++ [inference_call self img].
Proof.
  intros Hinit. apply init_tta in Hinit as [_ Htta].
  unfold run_inference, inference_call, bind, call, ret, raise.
  destruct (use_tta self).
  - destruct Htta as (m & t & -> & -> & _).
    destruct (tta_predict_single m t img true (world st1)).
    by intros [= _ <-].
  - intros Hrun. by repeat (case_match; simplify_eq/=).
Qed.

(** *** What [main] reports *)


(** When [predict_image] raises on a file source, [main] prints the
    line [Error during inference:] with the exception's message, sends
    the traceback to stderr and returns 1; nothing else is added, in
    particular no success line. *)
Theorem main_single_failure (args : Args) st predictor st1 e st2 :
  __init__ lib (arg_model args) (arg_conf args) (arg_iou args) (arg_device args)
    (arg_tta args) (exec print_header st) = (inr predictor, st1) →
  Path_is_file lib (world st1) (pathlib.of_str (arg_source args)) = true →
  predict_image lib predictor (pathlib.of_str (arg_source args))
    (negb (arg_no_save args))
    (if negb (arg_no_save args) then Some (pathlib.of_str (arg_output args))
     else None)
    (printed st1 [[FStr "🔍 Running inference on: ";
                   FStr (pathlib.str (pathlib.of_str (arg_source args)))]; []])
    = (inl e, st2) →
  main lib args st =
    (inr 1,
     mkState (world st2)
       (stdout st2 ++ [[FStr "❌ Error during inference: "; FStr (str_exc e)]])
       (stderr st2 ++ [e]) (calls st2)).
Proof.
  intros Hinit Hfile Hrun. unfold main, exec in *.
  rewrite (bind_ok _ _ _ tt _ (print_header_run st)).
  rewrite print_header_run in Hinit. cbn [snd] in Hinit.
  unfold bind at 1, main_load, try_except, bind at 1.
  rewrite Hinit. unfold ret at 1.
  unfold main_infer, try_except, bind at 1, ask. rewrite Hfile.
  pose proof (main_single_run lib predictor (pathlib.of_str (arg_source args)) args
                (if negb (arg_no_save args)
                 then Some (pathlib.of_str (arg_output args)) else None) st1)
    as Hsingle.
  rewrite Hrun in Hsingle.
  unfold bind at 1, bind at 1. rewrite Hsingle.
  rewrite bind_print. by unfold bind, print_exc, ret.
Qed.

Lemma predict_batch_returns self (source_dir : Path) (save_output : bool)
    (output_dir : option Path) (extensions : list string) st
    (image_files : list Path) :
  Path_exists lib (world st) source_dir = true →
  find_images lib source_dir extensions [] st = (inr image_files, st) →
  ∃ rs st',
    predict_batch lib self source_dir save_output output_dir extensions st
    = (inr rs, st').
Proof.
  intros Hfound Hfiles. unfold predict_batch, bind at 1, ask; cbn [negb].
  rewrite Hfound; cbn [negb]. rewrite (bind_ok _ _ _ _ _ Hfiles).
  destruct image_files as [|p rest].
  - rewrite bind_print. by eexists _, _.
  - rewrite !bind_print, printed_printed.
    destruct (process_images_run lib self (p :: rest) save_output output_dir []
                (printed st (batch_banner source_dir (p :: rest))))
      as (outcomes & st' & Hrun & _).
    exists (successes outcomes), st'. exact Hrun.
Qed.

(** On a directory source that exists and can be listed, [main]
    returns 0 however many of the images fail, all of them included:
    the exit code of a batch says nothing about the images. *)
Theorem main_batch_exit_zero (args : Args) st predictor st1
    (image_files : list Path) :
  let source := pathlib.of_str (arg_source args) in
  let banner := printed st1 [[FStr "🔍 Running batch inference on: ";
                              FStr (pathlib.str source)]; []] in
  __init__ lib (arg_model args) (arg_conf args) (arg_iou args) (arg_device args)
    (arg_tta args) (exec print_header st) = (inr predictor, st1) →
  Path_is_file lib (world st1) source = false →
  Path_is_dir lib (world st1) source = true →
  Path_exists lib (world st1) source = true →
  find_images lib source default_extensions [] banner = (inr image_files, banner) →
  ∃ st', main lib args st = (inr 0, st').
Proof.
  intros source banner Hinit Hfile Hdir Hfound Hfiles. unfold main, exec in *.
  rewrite (bind_ok _ _ _ tt _ (print_header_run st)).
  rewrite print_header_run in Hinit. cbn [snd] in Hinit.
  unfold bind at 1, main_load, try_except, bind at 1.
  rewrite Hinit. unfold ret at 1.
  destruct (main_infer_run lib predictor args st1) as (code & st' & Hrun & Hcode).
  fold source in Hcode. rewrite Hfile, Hdir in Hcode.
  destruct (predict_batch_returns predictor source (negb (arg_no_save args))
              (if negb (arg_no_save args)
               then Some (pathlib.of_str (arg_output args)) else None)
              default_extensions banner image_files Hfound Hfiles)
    as (rs & st2 & Hbatch).
  fold banner in Hcode. rewrite Hbatch in Hcode. subst code.
  by exists st'.
Qed.

End Behaviour.

(** ** Where the saved file goes *)

Section SavedPath.

Implicit Types (s : string) (p dir : Path).

Lemma split_parts (sep : ascii) s :
  Forall (λ x, Str.contains sep x = false) (Str.split sep s).
Proof.
  induction s as [|c s IH]; cbn; [by constructor|].
  destruct (Ascii.eqb c sep) eqn:Hc; [by constructor|].
  destruct (Str.split sep s) as [|x xs]; [by repeat constructor; cbn; rewrite Hc|].
  apply Forall_cons in IH as [Hx Hxs]. constructor; [|done].
  cbn. by rewrite Hc, Hx.
Qed.

Lemma name_of_str s :
  Str.contains "/" (pathlib.name (pathlib.of_str s)) = false.
Proof.
  unfold pathlib.name, pathlib.of_str; cbn [parts].
  pose proof (split_parts "/" s) as Hparts.
  induction Hparts as [|x l Hx _ IH]; [done|].
  cbn. destruct (pathlib.keep_part x); [|done].
  cbn. destruct (List.filter pathlib.keep_part l); done.
Qed.

(** For an image given on the command line, whatever the string, the
    path [predict_image] saves to is the output directory extended by
    one component, the input's [stem + "_predicted" + suffix]: the
    directories of the input are dropped, and the file lands in the
    output directory itself. *)
Theorem saved_path_in_output_dir dir (source : string) :
  dir // output_name (pathlib.of_str source)
  = mkPath (root dir) (parts dir ++ [output_name (pathlib.of_str source)]).
Proof. apply output_path_parts, name_of_str. Qed.

End SavedPath.

(** ** The statements on the concrete world *)

Lemma init_missing_model_witness :
  Path_exists Demo.lib (world Demo.start) (pathlib.of_str "weights/missing.pt") = false
  ∧ __init__ Demo.lib "weights/missing.pt" (Finite (1 # 4)) (Finite (9 # 20)) None true
      Demo.start
    = (inl (FileNotFoundError "Model not found: weights/missing.pt"), Demo.start).
Proof.
  split; [reflexivity|].
  apply (init_missing_model Demo.lib "weights/missing.pt"). reflexivity.
Defined.

Lemma predict_image_missing_witness :
  Path_exists Demo.lib (world Demo.start) (pathlib.of_str "shots/ghost.jpg") = false
  ∧ predict_image Demo.lib Demo.self (pathlib.of_str "shots/ghost.jpg") true None
      Demo.start
    = (inl (FileNotFoundError "Image not found: shots/ghost.jpg"), Demo.start).
Proof.
  split; [reflexivity|].
  apply (predict_image_missing Demo.lib Demo.self (pathlib.of_str "shots/ghost.jpg")).
  reflexivity.
Defined.

Lemma predict_image_unreadable_witness :
  Path_exists Demo.lib (world Demo.start) (pathlib.of_str "shots/broken.png") = true
  ∧ cv2_imread Demo.lib (world Demo.start) "shots/broken.png" = None
  ∧ predict_image Demo.lib Demo.self (pathlib.of_str "shots/broken.png") true None
      Demo.start
    = (inl (ValueError "Failed to read image: shots/broken.png"),
       called Demo.start [call_imread "shots/broken.png"]).
Proof.
  split; [reflexivity|]. split; [reflexivity|].
  apply (predict_image_unreadable Demo.lib Demo.self
           (pathlib.of_str "shots/broken.png")); reflexivity.
Defined.

Lemma tta_request_downgraded_witness :
  inference_tta Demo.lib = None
  ∧ __init__ Demo.lib "best.pt" (Finite (1 # 4)) (Finite (9 # 20)) None true Demo.start
    = __init__ Demo.lib "best.pt" (Finite (1 # 4)) (Finite (9 # 20)) None false Demo.start
  ∧ __init__ Demo.lib "best.pt" (Finite (1 # 4)) (Finite (9 # 20)) None true Demo.start
    = (inr Demo.self, Demo.loaded)
  ∧ use_tta Demo.self = false
  ∧ calls Demo.loaded = [call_YOLO "best.pt"; call_model_to "cpu"].
Proof.
  split; [reflexivity|].
  destruct (tta_request_downgraded Demo.lib "best.pt" (Finite (1 # 4))
              (Finite (9 # 20)) None Demo.start eq_refl)
    as (Hsame & Hplain & _ & _).
  split; [exact Hsame|].
  split; [|split; reflexivity].
  apply (Hplain Demo.names Demo.disk Demo.disk); reflexivity.
Defined.


Lemma predict_image_result_invariant_witness :
  __init__ Demo.lib "best.pt" (Finite (1 # 4)) (Finite (9 # 20)) None false Demo.start
  = (inr Demo.self, Demo.loaded)
  ∧ predict_image Demo.lib Demo.self (pathlib.of_str "shots/cabin.jpg") true
      (Some (pathlib.of_str "out")) Demo.start
    = (inr Demo.cabin_result, Demo.cabin_state)
  ∧ num_detections Demo.cabin_result = length (predictions Demo.cabin_result)
  ∧ Forall (detection_wf (YOLO_names Demo.lib (model_ Demo.self)))
      (predictions Demo.cabin_result).
Proof.
  split; [reflexivity|]. split; [reflexivity|].
  apply (predict_image_result_invariant Demo.lib "best.pt" (Finite (1 # 4))
           (Finite (9 # 20)) None false Demo.start Demo.self Demo.loaded
           (pathlib.of_str "shots/cabin.jpg") true (Some (pathlib.of_str "out"))
           Demo.start Demo.cabin_result Demo.cabin_state); reflexivity.
Defined.

Lemma predict_batch_no_images_witness :
  Path_exists Demo.lib (world Demo.start) (pathlib.of_str "docs") = true
  ∧ predict_batch Demo.lib Demo.self (pathlib.of_str "docs") true None
      default_extensions Demo.start
    = (inr [], printed Demo.start [[FStr "⚠️  No images found in "; FStr "docs"]]).
Proof.
  split; [reflexivity|].
  apply (predict_batch_no_images Demo.lib Demo.self (pathlib.of_str "docs") true
           None default_extensions Demo.start); [reflexivity|].
  intros ext Hin.
  repeat (apply elem_of_cons in Hin as [-> | Hin]; [split; reflexivity|]).
  by apply elem_of_nil in Hin.
Defined.

Lemma predict_batch_skips_failures_witness :
  Path_exists Demo.lib (world Demo.start) (pathlib.of_str "shots") = true
  ∧ find_images Demo.lib (pathlib.of_str "shots") default_extensions [] Demo.start
    = (inr Demo.shots_files, Demo.start)
  ∧ ∃ outcomes st',
      predict_batch Demo.lib Demo.self (pathlib.of_str "shots") true None
        default_extensions Demo.start
      = (inr (successes outcomes), st')
      ∧ batch_run Demo.lib Demo.self true None Demo.shots_files
          (printed Demo.start
             (batch_banner (pathlib.of_str "shots") Demo.shots_files))
          outcomes st'
      ∧ length outcomes = 4%nat.
Proof.
  split; [reflexivity|]. split; [reflexivity|].
  apply (predict_batch_skips_failures Demo.lib Demo.self (pathlib.of_str "shots")
           true None default_extensions Demo.start Demo.shots_files); reflexivity.
Defined.


(** ** Runs of [main] on the concrete world *)

Example main_single_image :
  (main Demo.lib (Demo.args "shots/cabin.jpg") Demo.start).1 = inr 0.
Proof. reflexivity. Qed.

Example main_unreadable_image :
  (main Demo.lib (Demo.args "shots/broken.png") Demo.start).1 = inr 1.
Proof. reflexivity. Qed.

Example main_missing_source :
  (main Demo.lib (Demo.args "nowhere") Demo.start).1 = inr 1.
Proof. reflexivity. Qed.

Example main_missing_model :
  (main Demo.lib
     (mkArgs "shots" "none.pt" (Finite (1 # 4)) (Finite (9 # 20)) None
        "predictions" false false)
     Demo.start).1 = inr 1.
Proof. reflexivity. Qed.

(** A batch in which two of the four images raise still exits with 0:
    the exceptions are handled inside [predict_batch]. *)
Example main_batch_with_failures :
  (main Demo.lib (Demo.args "shots") Demo.start).1 = inr 0.
Proof. reflexivity. Qed.

Example batch_keeps_successes :
  (predict_batch Demo.lib Demo.self (pathlib.of_str "shots") false None
     default_extensions Demo.start).1
  = inr [Demo.cabin_result; Demo.room_result].
Proof. reflexivity. Qed.

(** A directory listing that raises reaches the handler of [main]. *)
Example main_batch_listing_fails :
  (main Demo.lib_flaky (Demo.args "shots") Demo.start).1 = inr 1.
Proof. reflexivity. Qed.

(** With the module imported, the same request builds a TTA predictor. *)
Example tta_request_honoured :
  let run := __init__ Demo.lib_tta "best.pt" (Finite (1 # 4)) (Finite (9 # 20))
               None true Demo.start in
  match run.1 with
  | inr self => use_tta self = true ∧ predictor self = Some tt
  | inl _ => False
  end
  ∧ calls run.2 = [call_TTAPredictor "best.pt"].
Proof. cbv zeta. split; [split|]; reflexivity. Qed.

(** ** The further statements on the concrete world *)

Lemma extract_predictions_rows_witness :
  _extract_predictions Demo.self (WithBoxes [Demo.tank; Demo.first_aid])
  = inr (predictions Demo.cabin_result)
  ∧ Forall2 (detection_of (class_names Demo.self)) [Demo.tank; Demo.first_aid]
      (predictions Demo.cabin_result).
Proof.
  split; [reflexivity|].
  apply (extract_predictions_rows Demo.self
           (WithBoxes [Demo.tank; Demo.first_aid]) (predictions Demo.cabin_result)).
  reflexivity.
Defined.

Lemma extract_predictions_unknown_class_witness :
  py_int (cls Demo.unknown) = inr 9
  ∧ class_names Demo.self !! 9 = None
  ∧ _extract_predictions Demo.self
      (WithBoxes ([Demo.tank] ++ Demo.unknown :: [Demo.first_aid]))
    = inl (KeyError 9).
Proof.
  split; [reflexivity|]. split; [reflexivity|].
  apply (extract_predictions_unknown_class Demo.self [Demo.tank] Demo.unknown
           [Demo.first_aid] 9); [|reflexivity|reflexivity].
  repeat constructor. exists 0. split; [reflexivity|]. by eexists.
Defined.

Lemma draw_predictions_outcome_witness :
  _draw_predictions Demo.lib Demo.cabin [DemoMore.far_class; DemoMore.blurred]
  = inl (ValueError "cannot convert float NaN to integer")
  ∧ ((∃ d x, d ∈ [DemoMore.far_class; DemoMore.blurred] ∧ x ∈ bbox d
             ∧ py_int x = inl (ValueError "cannot convert float NaN to integer"))
     ∨ (∃ i a b c t,
          cv2_rectangle Demo.lib i a b c t
          = inl (ValueError "cannot convert float NaN to integer"))
     ∨ (∃ i l o c,
          cv2_putText Demo.lib i l o c
          = inl (ValueError "cannot convert float NaN to integer"))).
Proof.
  split; [reflexivity|].
  apply (draw_predictions_outcome Demo.lib Demo.cabin
           [DemoMore.far_class; DemoMore.blurred]).
  repeat constructor.
Defined.

Lemma predict_image_raises_silently_witness :
  predict_image Demo.lib Demo.self (pathlib.of_str "shots/odd.PNG") true None
    Demo.start
  = (inl (KeyError 9), DemoMore.odd_state)
  ∧ stdout DemoMore.odd_state = [] ∧ stderr DemoMore.odd_state = [].
Proof.
  split; [reflexivity|].
  apply (predict_image_raises_silently Demo.lib Demo.self
           (pathlib.of_str "shots/odd.PNG") true None Demo.start (KeyError 9)
           DemoMore.odd_state).
  reflexivity.
Defined.

Lemma predict_image_without_saving_witness :
  predict_image Demo.lib Demo.self (pathlib.of_str "shots/cabin.jpg") false None
    Demo.start
  = (inr Demo.cabin_result, DemoMore.cabin_unsaved)
  ∧ writes (calls DemoMore.cabin_unsaved) = []
  ∧ stdout DemoMore.cabin_unsaved = [].
Proof.
  split; [reflexivity|].
  apply (predict_image_without_saving Demo.lib Demo.self
           (pathlib.of_str "shots/cabin.jpg") None Demo.start
           (inr Demo.cabin_result) DemoMore.cabin_unsaved).
  reflexivity.
Defined.

Lemma predict_image_result_without_saving_witness :
  predict_image Demo.lib Demo.self (pathlib.of_str "shots/cabin.jpg") true
    (Some (pathlib.of_str "out")) Demo.start
  = (inr Demo.cabin_result, Demo.cabin_state)
  ∧ ∃ img st'',
      predict_image Demo.lib Demo.self (pathlib.of_str "shots/cabin.jpg") false
        (Some (pathlib.of_str "out")) Demo.start
      = (inr Demo.cabin_result, st'')
      ∧ calls st'' = [call_imread "shots/cabin.jpg"; call_predict img].
Proof.
  split; [reflexivity|].
  apply (predict_image_result_without_saving Demo.lib Demo.self
           (pathlib.of_str "shots/cabin.jpg") (Some (pathlib.of_str "out"))
           Demo.start Demo.cabin_result Demo.cabin_state).
  reflexivity.
Defined.

Lemma predict_image_mkdir_failure_witness :
  predict_image Demo.lib Demo.self (pathlib.of_str "shots/cabin.jpg") false
    (Some (pathlib.of_str "best.pt")) Demo.start
  = (inr Demo.cabin_result, DemoMore.cabin_unsaved)
  ∧ predict_image Demo.lib Demo.self (pathlib.of_str "shots/cabin.jpg") true
      (Some (pathlib.of_str "best.pt")) Demo.start
    = (inl (LibraryError "FileExistsError" "best.pt"),
       mkState Demo.disk [] []
         (calls DemoMore.cabin_unsaved ++ [call_mkdir (pathlib.of_str "best.pt")])).
Proof.
  split; [reflexivity|].
  apply (predict_image_mkdir_failure Demo.lib Demo.self
           (pathlib.of_str "shots/cabin.jpg") (Some (pathlib.of_str "best.pt"))
           Demo.start Demo.cabin_result DemoMore.cabin_unsaved
           (LibraryError "FileExistsError" "best.pt") Demo.disk); reflexivity.
Defined.

Lemma predict_batch_missing_directory_witness :
  Path_exists Demo.lib (world Demo.start) (pathlib.of_str "nowhere") = false
  ∧ predict_batch Demo.lib Demo.self (pathlib.of_str "nowhere") true None
      default_extensions Demo.start
    = (inl (FileNotFoundError "Directory not found: nowhere"), Demo.start).
Proof.
  split; [reflexivity|].
  apply (predict_batch_missing_directory Demo.lib Demo.self
           (pathlib.of_str "nowhere") true None default_extensions Demo.start).
  reflexivity.
Defined.

Lemma predict_batch_without_saving_witness :
  predict_batch Demo.lib Demo.self (pathlib.of_str "shots") false None
    default_extensions Demo.start
  = (inr [Demo.cabin_result; Demo.room_result], DemoMore.batch_unsaved)
  ∧ writes (calls DemoMore.batch_unsaved) = [].
Proof.
  split; [reflexivity|].
  apply (predict_batch_without_saving Demo.lib Demo.self (pathlib.of_str "shots")
           None default_extensions Demo.start
           (inr [Demo.cabin_result; Demo.room_result]) DemoMore.batch_unsaved).
  reflexivity.
Defined.

Lemma main_no_save_writes_nothing_witness :
  main Demo.lib DemoMore.args_no_save Demo.start = (inr 0, DemoMore.main_no_save)
  ∧ writes (calls DemoMore.main_no_save) = [].
Proof.
  split; [reflexivity|].
  apply (main_no_save_writes_nothing Demo.lib DemoMore.args_no_save Demo.start
           (inr 0) DemoMore.main_no_save); reflexivity.
Defined.

Lemma find_images_order_witness :
  find_images Demo.lib (pathlib.of_str "shots") default_extensions [] Demo.start
  = (inr Demo.shots_files, Demo.start).
Proof.
  apply (find_images_order Demo.lib (pathlib.of_str "shots") default_extensions
           DemoMore.shots_lower DemoMore.shots_upper [] Demo.start).
  { repeat (constructor; [reflexivity|]). constructor. }
  intros ext Hin.
  repeat (apply elem_of_cons in Hin as [-> | Hin]; [split; reflexivity|]).
  by apply elem_of_nil in Hin.
Defined.

Lemma predict_batch_results_wf_witness :
  predict_batch Demo.lib Demo.self (pathlib.of_str "shots") true None
    default_extensions Demo.start
  = (inr [Demo.cabin_result; Demo.room_result], DemoMore.batch_saved)
  ∧ Forall (prediction_wf (class_names Demo.self))
      [Demo.cabin_result; Demo.room_result]
  ∧ sum_list (num_detections <$> [Demo.cabin_result; Demo.room_result]) = 2%nat.
Proof.
  split; [reflexivity|].
  apply (predict_batch_results_wf Demo.lib Demo.self (pathlib.of_str "shots") true
           None default_extensions Demo.start
           [Demo.cabin_result; Demo.room_result] DemoMore.batch_saved).
  reflexivity.
Defined.

Lemma predict_batch_results_in_order_witness :
  sublist (image_path <$> [Demo.cabin_result; Demo.room_result])
    (pathlib.str <$> Demo.shots_files)
  ∧ (2 ≤ 4)%nat.
Proof.
  apply (predict_batch_results_in_order Demo.lib Demo.self (pathlib.of_str "shots")
           true None default_extensions Demo.start Demo.shots_files
           [Demo.cabin_result; Demo.room_result] DemoMore.batch_saved);
    reflexivity.
Defined.

Lemma init_stores_arguments_witness :
  __init__ Demo.lib "best.pt" (Finite (1 # 4)) (Finite (9 # 20)) None false Demo.start
  = (inr Demo.self, Demo.loaded)
  ∧ device Demo.self = "cpu"
  ∧ class_names Demo.self = Demo.names.
Proof.
  split; [reflexivity|].
  destruct (init_stores_arguments Demo.lib "best.pt" (Finite (1 # 4))
              (Finite (9 # 20)) None false Demo.start Demo.self Demo.loaded eq_refl)
    as (_ & _ & _ & Hdevice & Hnames).
  split; [exact Hdevice | exact Hnames].
Defined.

Lemma init_tta_consistent_witness :
  __init__ Demo.lib_tta "best.pt" (Finite (1 # 4)) (Finite (9 # 20)) None true
    Demo.start
  = (inr DemoMore.self_tta, DemoMore.loaded_tta)
  ∧ ∃ m t, inference_tta Demo.lib_tta = Some m
           ∧ predictor DemoMore.self_tta = Some t
           ∧ model_ DemoMore.self_tta = tta_model m t.
Proof.
  split; [reflexivity|].
  destruct (init_tta_consistent Demo.lib_tta "best.pt" (Finite (1 # 4))
              (Finite (9 # 20)) None true Demo.start DemoMore.self_tta
              DemoMore.loaded_tta eq_refl) as [_ Htta].
  exact Htta.
Defined.

Lemma inference_after_init_witness :
  calls (mkState Demo.disk [] [] [call_predict Demo.cabin])
  = calls Demo.start ++ [inference_call Demo.self Demo.cabin].
Proof.
  apply (inference_after_init Demo.lib "best.pt" (Finite (1 # 4)) (Finite (9 # 20))
           None false Demo.start Demo.self Demo.loaded Demo.cabin Demo.start
           (inr (WithBoxes [Demo.tank; Demo.first_aid]))
           (mkState Demo.disk [] [] [call_predict Demo.cabin])); reflexivity.
Defined.


Lemma main_single_failure_witness :
  main Demo.lib (Demo.args "shots/broken.png") Demo.start
  = (inr 1,
     mkState (world DemoMore.broken_state)
       (stdout DemoMore.broken_state
        ++ [[FStr "❌ Error during inference: ";
             FStr "Failed to read image: shots/broken.png"]])
       [ValueError "Failed to read image: shots/broken.png"]
       (calls DemoMore.broken_state)).
Proof.
  apply (main_single_failure Demo.lib (Demo.args "shots/broken.png") Demo.start
           Demo.self DemoMore.loaded_main
           (ValueError "Failed to read image: shots/broken.png")
           DemoMore.broken_state); reflexivity.
Defined.

Lemma main_batch_exit_zero_witness :
  ∃ st', main Demo.lib (Demo.args "shots") Demo.start = (inr 0, st').
Proof.
  apply (main_batch_exit_zero Demo.lib (Demo.args "shots") Demo.start Demo.self
           DemoMore.loaded_main Demo.shots_files); reflexivity.
Defined.

(** ** A save that does not happen *)


(** With [--source shots/cabin.jpg] on that disk [main] still exits
    with 0. *)
Example main_unwritten_exit_zero :
  (main DemoReadOnly.lib (Demo.args "shots/cabin.jpg") Demo.start).1 = inr 0.
Proof. reflexivity. Qed.
